(** * PulseCheck: the probe, the check history and the monitor handlers

    A shallow embedding of the Supabase edge functions of the repository
    ([runCheck], [createMonitor], [getMonitors]) and of the SQL schema
    ([001_init.sql]) they run against, with the properties of the
    check-execution and status-aggregation engine stated over it.

    Conventions.
    - JavaScript numbers that occur in the program (status codes, milliseconds,
      seconds) are integers and are modelled by [Z].
    - [timestamptz] values and [Date.now()] readings are modelled by [Z].
    - What the program obtains from outside (the network, the wall clock, the
      URL parser of the runtime, the authentication service, transport faults
      of the database client) is a field of an explicit environment record. *)

From Stdlib Require Import ZArith NArith List String Ascii Bool Lia.
From Stdlib Require Import Permutation Sorted DecimalString.
Import ListNotations.

Local Open Scope string_scope.
Local Open Scope Z_scope.

(* ================================================================== *)
(** ** JavaScript values crossing the JSON boundary *)

Module JS.

Inductive jsval : Type :=
| JUndefined
| JNull
| JNum (z : Z)
| JStr (s : string).

(** An object literal: keys in insertion order. *)
Definition object := list (string * jsval).

(** Property read [o.k]; a missing key reads as [undefined]. *)
Fixpoint get (o : object) (k : string) : jsval :=
  match o with
  | [] => JUndefined
  | (k', v) :: o' => if (k' =? k)%string then v else get o' k
  end.

(** [`${n}`] for an integer-valued number. *)
Definition number_to_string (z : Z) : string :=
  NilZero.string_of_int (Z.to_int z).

(** What a [throw] or a rejected promise carries: an [Error] instance with
    its [message], or any other value. *)
Inductive thrown : Type :=
| ErrorObject (message : string)
| NonError.

(** [a || b] on an optional number: [undefined] and [0] are falsy. *)
Definition or_default (a : option Z) (b : Z) : Z :=
  match a with
  | Some z => if z =? 0 then b else z
  | None => b
  end.

(** [!s] on an optional string: [undefined] and [""] are falsy. *)
Definition falsy_string (s : option string) : bool :=
  match s with
  | Some s' => (s' =? "")%string
  | None => true
  end.

End JS.

(* ================================================================== *)
(** ** The probe: [performCheck] of [runCheck/index.ts] *)

Module Probe.
Import JS.

Inductive check_status : Type := up | down.

(** [Omit<CheckResult, "monitor_id" | "checked_at">] *)
Record check_result : Type := mkResult {
  status : check_status;
  response_time_ms : option Z;
  error_message : option string
}.

Inductive http_method : Type := GET | HEAD.

Record response : Type := mkResponse {
  resp_status : Z;
  resp_statusText : string
}.

(** [response.ok]: the status is in the range 200-299. *)
Definition ok (r : response) : bool :=
  (200 <=? resp_status r) && (resp_status r <=? 299).

(** The two fields of a parsed [URL] the probe reads. *)
Record URL : Type := mkURL {
  protocol : string;
  host : string
}.

(** What the server at a url does with one request, in real elapsed
    milliseconds from the moment that request is sent: it answers, with
    the target of its [Location] header when it sends one (resolved
    against the url of the request), or the exchange fails, or nothing
    ever comes back. *)
Inductive net_behaviour : Type :=
| Responds (delay : N) (r : response) (location : option string)
| Fails (delay : N) (e : thrown)
| Silent.

(** The runtime the probe runs in. [Date_now tau] is the wall-clock
    reading after [tau] real milliseconds of the probe's life.
    [timer_lag] is how long after its deadline the timer of an
    [AbortSignal.timeout] runs and aborts (a timer never runs early),
    [resume_lag] how long after a promise settles the code awaiting it
    runs again. *)
Record runtime : Type := mkRuntime {
  Date_now : N -> Z;
  net : string -> http_method -> net_behaviour;
  URL_parse : string -> option URL;
  timer_lag : N;
  resume_lag : N
}.

Record fetch_request : Type := mkFetch {
  f_url : string;
  f_method : http_method;
  f_timeout : N
}.

(** State threaded through one probe: real time elapsed so far and the
    calls of [fetch] made so far (oldest first). *)
Record pstate : Type := mkState {
  elapsed : N;
  issued : list fetch_request
}.

Inductive completion (A : Type) : Type :=
| Normal (a : A)
| Throw (e : thrown).
Arguments Normal {A} a.
Arguments Throw {A} e.

(** Computations that read the clock, use the network and may throw. *)
Definition M (A : Type) : Type := pstate -> completion A * pstate.

Definition ret {A} (a : A) : M A := fun s => (Normal a, s).

Definition bind {A B} (m : M A) (k : A -> M B) : M B :=
  fun s =>
    match m s with
    | (Normal a, s') => k a s'
    | (Throw e, s') => (Throw e, s')
    end.

Definition throw {A} (e : thrown) : M A := fun s => (Throw e, s).

(** [try { body } catch (error) { handler(error) }] *)
Definition try_catch {A} (body : M A) (handler : thrown -> M A) : M A :=
  fun s =>
    match body s with
    | (Normal a, s') => (Normal a, s')
    | (Throw e, s') => handler e s'
    end.

Declare Scope probe_scope.
Delimit Scope probe_scope with probe.
Notation "'let*' x ':=' m 'in' k" := (bind m (fun x => k))
  (at level 10, x name, m at level 100, k at level 200) : probe_scope.
Local Open Scope probe_scope.

(** The rejection of a fetch whose [AbortSignal.timeout] fired: a
    [DOMException] named [TimeoutError]; it is an [Error] instance. *)
Definition TimeoutError : thrown := ErrorObject "Signal timed out.".

Section WithRuntime.
Variable rt : runtime.

Definition now : M Z := fun s => (Normal (Date_now rt (elapsed s)), s).

(** The statuses [fetch] follows when the answer has a [Location]. *)
Definition redirect_status (code : Z) : bool :=
  (code =? 301) || (code =? 302) || (code =? 303) || (code =? 307)
  || (code =? 308).

(** The network error of a [fetch] whose twenty-first answer in a row is
    a redirect; a [TypeError]. *)
Definition TooManyRedirects : thrown :=
  ErrorObject "Maximum number of redirects (20) reached".

(** The exchanges of one [fetch] in the default mode [redirect: "follow"],
    from the instant the state holds: a redirect answer is followed to its
    target with the same method ([GET] and [HEAD] are kept by every
    redirect status), at most [hops] times. The timer of the deadline
    [due] runs at the instant [due + timer_lag]: what has happened before
    that instant stands, what has not is aborted then. *)
Fixpoint http_fetch (hops : nat) (url : string) (method : http_method)
         (due : N) : M response :=
  fun s =>
    let abort := (due + timer_lag rt)%N in
    let at_time t := mkState t (issued s) in
    let timed_out := (Throw TimeoutError, at_time abort) in
    match net rt url method with
    | Responds d r location =>
        if (elapsed s + d <? abort)%N then
          match location with
          | Some target =>
              if redirect_status (resp_status r) then
                match hops with
                | O => (Throw TooManyRedirects, at_time (elapsed s + d)%N)
                | S hops' =>
                    http_fetch hops' target method due
                               (at_time (elapsed s + d)%N)
                end
              else (Normal r, at_time (elapsed s + d)%N)
          | None => (Normal r, at_time (elapsed s + d)%N)
          end
        else timed_out
    | Fails d e =>
        if (elapsed s + d <? abort)%N
        then (Throw e, at_time (elapsed s + d)%N)
        else timed_out
    | Silent => timed_out
    end.

(** [await fetch(url, { method, signal: AbortSignal.timeout(ms) })]: one
    call, whose exchanges are those of [http_fetch] under the deadline
    [ms] from now; the awaiting code runs again [resume_lag] after the
    promise has settled. *)
Definition fetch (url : string) (method : http_method) (ms : N)
  : M response :=
  fun s =>
    let (outcome, s') := http_fetch 20 url method (elapsed s + ms)%N s in
    (outcome,
     mkState (elapsed s' + resume_lag rt)%N
             (issued s ++ [mkFetch url method ms])).

(** [new URL(url)]: throws a [TypeError] on an unparseable string. *)
Definition new_URL (url : string) : M URL :=
  match URL_parse rt url with
  | Some u => ret u
  | None => throw (ErrorObject ("Invalid URL: '" ++ url ++ "'"))
  end.

(** The statements inside the [try] block. *)
Definition performCheck_try (url type : string) (startTime : Z)
  : M check_result :=
  if ((type =? "http") || (type =? "https"))%string then
    let* response := fetch url GET 10000 in
    let* t := now in
    let responseTime := t - startTime in
    if ok response
       || ((300 <=? resp_status response) && (resp_status response <? 400))
    then ret (mkResult up (Some responseTime) None)
    else ret (mkResult down (Some responseTime)
                (Some ("HTTP " ++ number_to_string (resp_status response)
                         ++ ": " ++ resp_statusText response)))
  else if (type =? "ping")%string then
    let* urlObj := new_URL url in
    let* response := fetch (protocol urlObj ++ "//" ++ host urlObj)
                           HEAD 5000 in
    let* t := now in
    let responseTime := t - startTime in
    ret (mkResult up (Some responseTime) None)
  else
    ret (mkResult down None (Some "Unsupported monitor type")).

(** The [catch (error)] block. *)
Definition performCheck_catch (startTime : Z) (error : thrown)
  : M check_result :=
  let* t := now in
  let responseTime := t - startTime in
  let errorMessage :=
    match error with
    | ErrorObject message => message
    | NonError => "Unknown error"
    end in
  ret (mkResult down (Some responseTime) (Some errorMessage)).

Definition performCheck (url type : string) : M check_result :=
  let* startTime := now in
  try_catch (performCheck_try url type startTime)
            (performCheck_catch startTime).

(** A probe started now. *)
Definition start : pstate := mkState 0%N [].

Definition run_performCheck (url type : string)
  : completion check_result * pstate :=
  performCheck url type start.

End WithRuntime.

End Probe.

(* ================================================================== *)
(** ** The relational schema: [001_init.sql] *)

Module Schema.

Definition uuid : Type := string.
Definition timestamptz : Type := Z.

(** A row of [public.monitors]. *)
Module Monitor.
Record t : Type := mk {
  id : uuid;
  user_id : uuid;
  name : string;
  url : string;
  type : string;
  interval_seconds : Z;
  created_at : timestamptz
}.
End Monitor.

(** A row of [public.monitor_checks]. The column [status] is [text] with
    the constraint [status in ('up','down')]; the two admitted texts are
    the two constructors of [Probe.check_status]. *)
Module MonitorCheck.
Record t : Type := mk {
  id : uuid;
  monitor_id : uuid;
  status : Probe.check_status;
  response_time_ms : option Z;
  error_message : option string;
  checked_at : timestamptz
}.
End MonitorCheck.

(** A row of the result of [get_latest_monitor_status]:
    [returns table(monitor_id uuid, status text, checked_at timestamptz)]. *)
Module StatusRow.
Record t : Type := mk {
  monitor_id : uuid;
  status : Probe.check_status;
  checked_at : timestamptz
}.
End StatusRow.

Record database : Type := mkDatabase {
  users : list uuid;
  monitors : list Monitor.t;
  monitor_checks : list MonitorCheck.t
}.

Inductive db_error : Type :=
| numeric_value_out_of_range
| row_level_security_violation
| check_violation
| foreign_key_violation
| unique_violation
| unavailable.

(** [order by key desc]. Rows with equal keys stay in table order;
    PostgreSQL leaves their order open, and no statement below depends
    on it. *)
Fixpoint insert_desc {A} (key : A -> Z) (x : A) (l : list A) : list A :=
  match l with
  | [] => [x]
  | y :: l' => if key y <=? key x then x :: l else y :: insert_desc key x l'
  end.

Definition order_by_desc {A} (key : A -> Z) (l : list A) : list A :=
  fold_right (insert_desc key) [] l.

Definition limit {A} (n : nat) (l : list A) : list A := firstn n l.

(** [select monitor_id, status, checked_at] *)
Definition select_status (c : MonitorCheck.t) : StatusRow.t :=
  StatusRow.mk (MonitorCheck.monitor_id c) (MonitorCheck.status c)
               (MonitorCheck.checked_at c).

(** The body of [public.get_latest_monitor_status(monitor_uuid)], over
    the rows of [monitor_checks] the caller may see. *)
Definition get_latest_monitor_status
           (checks : list MonitorCheck.t) (monitor_uuid : uuid)
  : list StatusRow.t :=
  limit 1
    (order_by_desc StatusRow.checked_at
       (map select_status
          (filter (fun c => (MonitorCheck.monitor_id c =? monitor_uuid)%string)
                  checks))).

(** A successful [insert] adds one row to the table. *)
Definition append {A} (table : list A) (row : A) : list A := table ++ [row].

(** Row level security. Policy [users_can_manage_own_monitors]. *)
Definition own_monitor (uid : uuid) (m : Monitor.t) : bool :=
  (uid =? Monitor.user_id m)%string.

(** Policy [users_can_manage_own_checks]. *)
Definition own_check (d : database) (uid : uuid) (c : MonitorCheck.t) : bool :=
  existsb (fun m => (Monitor.id m =? MonitorCheck.monitor_id c)%string
                    && (Monitor.user_id m =? uid)%string)
          (monitors d).

Definition visible_monitors (d : database) (uid : uuid) : list Monitor.t :=
  filter (own_monitor uid) (monitors d).

Definition visible_checks (d : database) (uid : uuid) : list MonitorCheck.t :=
  filter (own_check d uid) (monitor_checks d).

(** The range of the SQL type [int]. *)
Definition in_int4 (z : Z) : bool :=
  (-2147483648 <=? z) && (z <=? 2147483647).

(** The columns an [insert] into [monitors] supplies; [id] and
    [created_at] take their defaults. *)
Record new_monitor : Type := mkNewMonitor {
  nm_user_id : uuid;
  nm_name : string;
  nm_url : string;
  nm_type : string;
  nm_interval_seconds : Z
}.

(** [type in ('http', 'https', 'ping')] *)
Definition type_check (type : string) : bool :=
  ((type =? "http") || (type =? "https") || (type =? "ping"))%string.

(** [insert into public.monitors ... returning *] as the user [uid], with
    [fresh] drawn by [uuid_generate_v4()] and [now] read by [now()]. *)
Definition insert_monitor (d : database) (uid : uuid)
           (fresh : uuid) (now : timestamptz) (v : new_monitor)
  : db_error + (Monitor.t * database) :=
  let row := Monitor.mk fresh (nm_user_id v) (nm_name v) (nm_url v)
                        (nm_type v) (nm_interval_seconds v) now in
  if negb (in_int4 (nm_interval_seconds v)) then
    inl numeric_value_out_of_range
  else if negb (own_monitor uid row) then
    inl row_level_security_violation
  else if negb (type_check (nm_type v)) then
    inl check_violation
  else if existsb (fun m => (Monitor.id m =? fresh)%string) (monitors d) then
    inl unique_violation
  else if negb (existsb (String.eqb (nm_user_id v)) (users d)) then
    inl foreign_key_violation
  else
    inr (row, mkDatabase (users d) (append (monitors d) row)
                         (monitor_checks d)).

End Schema.

(* ================================================================== *)
(** ** The edge functions: [createMonitor] and [getMonitors] *)

Module Edge.
Import JS Schema.

(** The calls the handlers make through the Supabase client. Each is one
    HTTP round trip to the database API. *)
Inductive db_call : Type :=
| from_monitors_select
| from_monitors_insert (v : new_monitor)
| rpc_get_latest_monitor_status (monitor_uuid : uuid).

(** What a handler obtains from outside the database contents: the answer
    of [auth.getUser()], the URL parser of the runtime, a possible fault
    of each client call (transport or server failure, reported by the
    client in [error], never thrown), and the values the defaults
    [uuid_generate_v4()] and [now()] take at an insert. *)
Record env : Type := mkEnv {
  getUser_user : option uuid;
  getUser_error : option string;
  URL_parse : string -> option Probe.URL;
  fault : db_call -> option db_error;
  uuid_generate_v4 : uuid;
  sql_now : timestamptz
}.

(** The database and the calls made so far (oldest first). *)
Record world : Type := mkWorld {
  db : database;
  calls : list db_call
}.

(** The [{ data, error }] pair of a client call. *)
Record result (A : Type) : Type := mkPgResult {
  data : option A;
  error : option db_error
}.
Arguments mkPgResult {A} data error.
Arguments data {A} r.
Arguments error {A} r.

Definition H (A : Type) : Type := world -> A * world.

Definition ret {A} (a : A) : H A := fun w => (a, w).

Definition bind {A B} (m : H A) (k : A -> H B) : H B :=
  fun w => let (a, w') := m w in k a w'.

Declare Scope edge_scope.
Delimit Scope edge_scope with edge.
Notation "'let*' x ':=' m 'in' k" := (bind m (fun x => k))
  (at level 10, x name, m at level 100, k at level 200) : edge_scope.
Local Open Scope edge_scope.

(** [await Promise.all(xs.map(f))]: the calls of [f] only read the
    database, so the results are those of running them one after the
    other, in the order of [xs]. *)
Fixpoint Promise_all_map {A B} (f : A -> H B) (xs : list A) : H (list B) :=
  match xs with
  | [] => ret []
  | x :: xs' =>
      let* y := f x in
      let* ys := Promise_all_map f xs' in
      ret (y :: ys)
  end.

Definition record_call (c : db_call) (w : world) : world :=
  mkWorld (db w) (calls w ++ [c]).

Section Client.
Variable e : env.
(** [auth.uid()] of the requests the client sends: the verified user. *)
Variable uid : uuid.

(** [.from("monitors").select("*").order("created_at",
    { ascending: false })] *)
Definition select_monitors : H (result (list Monitor.t)) :=
  fun w =>
    let w' := record_call from_monitors_select w in
    match fault e from_monitors_select with
    | Some err => (mkPgResult None (Some err), w')
    | None =>
        (mkPgResult
           (Some (order_by_desc Monitor.created_at
                    (visible_monitors (db w) uid)))
           None, w')
    end.

(** [.from("monitors").insert(v).select().single()] *)
Definition insert_select_single (v : new_monitor) : H (result Monitor.t) :=
  fun w =>
    let w' := record_call (from_monitors_insert v) w in
    match fault e (from_monitors_insert v) with
    | Some err => (mkPgResult None (Some err), w')
    | None =>
        match insert_monitor (db w) uid (uuid_generate_v4 e) (sql_now e) v with
        | inl err => (mkPgResult None (Some err), w')
        | inr (row, d') => (mkPgResult (Some row) None, mkWorld d' (calls w'))
        end
    end.

(** A result row as the JSON object the client receives. A
    [timestamptz] travels as an ISO-8601 string; it is kept here as the
    instant it denotes. *)
Definition status_json (s : Probe.check_status) : jsval :=
  match s with
  | Probe.up => JStr "up"
  | Probe.down => JStr "down"
  end.

Definition row_to_json (r : StatusRow.t) : object :=
  [ ("monitor_id", JStr (StatusRow.monitor_id r));
    ("status", status_json (StatusRow.status r));
    ("checked_at", JNum (StatusRow.checked_at r)) ].

(** [.rpc("get_latest_monitor_status", { monitor_uuid })] *)
Definition rpc_latest (monitor_uuid : uuid) : H (result (list object)) :=
  fun w =>
    let w' := record_call (rpc_get_latest_monitor_status monitor_uuid) w in
    match fault e (rpc_get_latest_monitor_status monitor_uuid) with
    | Some err => (mkPgResult None (Some err), w')
    | None =>
        (mkPgResult
           (Some (map row_to_json
                    (get_latest_monitor_status
                       (visible_checks (db w) uid) monitor_uuid)))
           None, w')
    end.
End Client.

(** *** Requests and responses *)

Inductive body : Type :=
| no_body
| error_body (error : string)
| monitor_body (data : option Monitor.t).

Record Response (B : Type) : Type := mkResponse {
  status : Z;
  payload : B
}.
Arguments mkResponse {B} status payload.
Arguments status {B} r.
Arguments payload {B} r.

(** *** [createMonitor/index.ts] *)

(** [interface CreateMonitorRequest]; any key may be missing from the
    JSON the caller sends. *)
Record CreateMonitorRequest : Type := mkCreate {
  name : option string;
  url : option string;
  type : option string;
  interval_seconds : option Z
}.

(** [req.method] and the outcome of [await req.json()] ([None] when it
    rejects: the body is not JSON). *)
Record create_request : Type := mkCreateRequest {
  method : string;
  json : option CreateMonitorRequest
}.

Definition text (s : option string) : string :=
  match s with Some s' => s' | None => "" end.

(** [["http", "https", "ping"].includes(t)] *)
Definition includes (l : list string) (t : string) : bool :=
  existsb (String.eqb t) l.

Definition createMonitor (e : env) (req : create_request)
  : H (Response body) :=
  if (method req =? "OPTIONS")%string then
    ret (mkResponse 204 no_body)
  else if negb (method req =? "POST")%string then
    ret (mkResponse 405 (error_body "Method not allowed"))
  else
    match getUser_error e, getUser_user e with
    | None, Some user =>
        match json req with
        | None => ret (mkResponse 500 (error_body "Internal server error"))
        | Some body =>
            if falsy_string (name body) || falsy_string (url body)
               || falsy_string (type body)
            then ret (mkResponse 400
                        (error_body "Missing required fields: name, url, type"))
            else if negb (includes ["http"; "https"; "ping"] (text (type body)))
            then ret (mkResponse 400
                        (error_body
                           "Invalid type. Must be 'http', 'https', or 'ping'"))
            else
              match URL_parse e (text (url body)) with
              | None => ret (mkResponse 400 (error_body "Invalid URL format"))
              | Some _ =>
                  let* r := insert_select_single e user
                              (mkNewMonitor user (text (name body))
                                 (text (url body)) (text (type body))
                                 (or_default (interval_seconds body) 300)) in
                  match error r with
                  | Some insertError =>
                      ret (mkResponse 500
                             (error_body "Failed to create monitor"))
                  | None => ret (mkResponse 201 (monitor_body (data r)))
                  end
              end
        end
    | _, _ => ret (mkResponse 401 (error_body "Unauthorized - please log in"))
    end.

(** *** [getMonitors/index.ts] *)

(** [interface MonitorWithStatus]: the monitor's columns and
    [latest_status], [None] for [null]. *)
Record MonitorWithStatus : Type := mkWithStatus {
  monitor : Monitor.t;
  latest_status : option object
}.

Inductive list_body : Type :=
| list_no_body
| list_error (error : string)
| list_data (data : list MonitorWithStatus) (count : Z).

(** The callback of [monitors.map]. *)
Definition with_latest_status (e : env) (uid : uuid) (m : Monitor.t)
  : H MonitorWithStatus :=
  let* r := rpc_latest e uid (Monitor.id m) in
  let latestStatus :=
    match error r, data r with
    | None, Some (status :: _) =>
        Some [ ("status", get status "status");
               ("checked_at", get status "checked_at");
               ("response_time_ms", get status "response_time_ms") ]
    | _, _ => None
    end in
  ret (mkWithStatus m latestStatus).

Definition getMonitors (e : env) (req_method : string)
  : H (Response list_body) :=
  if (req_method =? "OPTIONS")%string then
    ret (mkResponse 204 list_no_body)
  else if negb (req_method =? "GET")%string then
    ret (mkResponse 405 (list_error "Method not allowed"))
  else
    match getUser_error e, getUser_user e with
    | None, Some user =>
        let* r := select_monitors e user in
        match error r with
        | Some _ => ret (mkResponse 500 (list_error "Failed to fetch monitors"))
        | None =>
            let monitors := match data r with Some l => l | None => [] end in
            let* monitorsWithStatus :=
              Promise_all_map (with_latest_status e user) monitors in
            ret (mkResponse 200
                   (list_data monitorsWithStatus
                              (Z.of_nat (List.length monitorsWithStatus))))
        end
    | _, _ => ret (mkResponse 401 (list_error "Unauthorized - please log in"))
    end.

(** The round trips a handler made for per-monitor status lookups. *)
Definition is_status_lookup (c : db_call) : bool :=
  match c with
  | rpc_get_latest_monitor_status _ => true
  | _ => false
  end.

Definition status_lookups (w : world) : list db_call :=
  filter is_status_lookup (calls w).

End Edge.

(* ================================================================== *)
(** ** Notions the statements below are phrased with *)

Module Notions.
Import JS Schema Edge.

(** The wall clock does not run backwards during a probe. *)
Definition clock_monotone (rt : Probe.runtime) : Prop :=
  forall a b, (a <= b)%N -> Probe.Date_now rt a <= Probe.Date_now rt b.



(** The checks of one monitor. *)
Definition checks_of (m : uuid) (table : list MonitorCheck.t)
  : list MonitorCheck.t :=
  filter (fun c => (MonitorCheck.monitor_id c =? m)%string) table.

(** The monitors a listing returns for the user, newest first. *)
Definition listed (d : database) (u : uuid) : list Monitor.t :=
  order_by_desc Monitor.created_at (visible_monitors d u).

Definition lookup_call (m : Monitor.t) : db_call :=
  rpc_get_latest_monitor_status (Monitor.id m).

(** The value the [map] callback computes for one monitor. *)
Definition annotate (e : env) (u : uuid) (d : database) (m : Monitor.t)
  : MonitorWithStatus :=
  fst (with_latest_status e u m (mkWorld d [])).

Definition authenticated (e : env) (u : uuid) : Prop :=
  getUser_error e = None /\ getUser_user e = Some u.

Definition has_checks (d : database) (m : Monitor.t) : Prop :=
  exists c, In c (monitor_checks d) /\ MonitorCheck.monitor_id c = Monitor.id m.

(** [c] is a most recent check of [m]. *)
Definition most_recent (d : database) (m : Monitor.t) (c : MonitorCheck.t)
  : Prop :=
  In c (monitor_checks d) /\ MonitorCheck.monitor_id c = Monitor.id m
  /\ forall c', In c' (monitor_checks d) ->
                MonitorCheck.monitor_id c' = Monitor.id m ->
                MonitorCheck.checked_at c' <= MonitorCheck.checked_at c.

(** *** The probe's fetch *)

Section ProbeNotions.
Import Probe.

(** What [fetch] settles with when called first thing in a probe. *)
Definition fetched (rt : runtime) (url : string) (method : http_method)
           (ms : N) : completion response :=
  fst (fetch rt url method ms start).

(** The result of the [catch] block for the thrown value [e], entered in
    the state [s]. *)
Definition caught (rt : runtime) (e : thrown) (s : pstate)
  : completion check_result * pstate :=
  (Normal (mkResult down (Some (Date_now rt (elapsed s) - Date_now rt 0))
             (Some match e with
                   | ErrorObject message => message
                   | NonError => "Unknown error"
                   end)), s).

End ProbeNotions.
End Notions.

(* ================================================================== *)
(** ** Concrete runtimes, databases and requests *)

Module Samples.
Import JS Schema Edge.
Import Probe(http_method, net_behaviour, Responds, Fails, runtime, mkRuntime).

Definition sample_net (u : string) (m : http_method) : net_behaviour :=
  if (u =? "https://example.test")%string then
    Responds 120 (Probe.mkResponse 200 "OK") None
  else if (u =? "https://example.test/missing")%string then
    Responds 80 (Probe.mkResponse 404 "Not Found") None
  else if (u =? "https://example.test/moved")%string then
    Responds 30 (Probe.mkResponse 302 "Found")
             (Some "https://example.test/missing")
  else if (u =? "https://slow.test")%string then
    Responds 20000 (Probe.mkResponse 200 "OK") None
  else Fails 15 (ErrorObject "dns error: failed to lookup address information").

Definition sample_parse (u : string) : option Probe.URL :=
  if (u =? "https://example.test/health")%string
  then Some (Probe.mkURL "https:" "example.test") else None.

Definition sample_runtime : runtime :=
  mkRuntime (fun tau => 1700000000000 + Z.of_N tau) sample_net sample_parse
            12 0.


Definition toy_URL_parse (u : string) : option Probe.URL :=
  if String.prefix "https://" u
  then Some (Probe.mkURL "https:" (String.substring 8 (String.length u - 8) u))
  else None.

Definition m1 : Monitor.t :=
  Monitor.mk "m1" "u1" "site" "https://example.test" "https" 300 100.
Definition m2 : Monitor.t :=
  Monitor.mk "m2" "u1" "api" "https://api.example.test" "https" 600 200.
Definition c1 : MonitorCheck.t :=
  MonitorCheck.mk "c1" "m1" Probe.up (Some 120) None 1000.
Definition c2 : MonitorCheck.t :=
  MonitorCheck.mk "c2" "m1" Probe.down (Some 80)
                  (Some "HTTP 500: Internal Server Error") 2000.

Definition sample_db : database :=
  mkDatabase ["u1"; "u2"] [m1; m2] [c2; c1].

Definition no_fault (c : db_call) : option db_error := None.

Definition lookup_fault (c : db_call) : option db_error :=
  match c with
  | rpc_get_latest_monitor_status "m1" => Some unavailable
  | _ => None
  end.

Definition sample_env : env :=
  mkEnv (Some "u1") None toy_URL_parse no_fault "m3" 300.
Definition faulty_env : env :=
  mkEnv (Some "u1") None toy_URL_parse lookup_fault "m3" 300.

Definition sample_world : world := mkWorld sample_db [].

Definition create_with (name : string) (interval : option Z) : create_request :=
  mkCreateRequest "POST"
    (Some (mkCreate (Some name) (Some "https://example.test") (Some "https")
                    interval)).

(** A clock that once steps back. *)
Definition stepping_back_runtime : Probe.runtime :=
  Probe.mkRuntime (fun tau => if (tau =? 0)%N then 1000 else 995)
            (fun _ _ => Responds 7 (Probe.mkResponse 200 "OK") None)
            (fun _ => None) 0 0.

End Samples.

(* ================================================================== *)
(** ** Further statements of the schema: check rows, deletion, lookup by id *)

Module Store.
Import Schema.

(** The columns an [insert] into [monitor_checks] supplies; [id] and
    [checked_at] take their defaults. *)
Record new_check : Type := mkNewCheck {
  nc_monitor_id : uuid;
  nc_status : Probe.check_status;
  nc_response_time_ms : option Z;
  nc_error_message : option string
}.

Definition fits_int4 (v : option Z) : bool :=
  match v with
  | Some z => in_int4 z
  | None => true
  end.

(** [insert into public.monitor_checks ... returning *] as the user [uid],
    with [fresh] drawn by [uuid_generate_v4()] and [now] read by [now()]. *)
Definition insert_check (d : database) (uid : uuid)
           (fresh : uuid) (now : timestamptz) (v : new_check)
  : db_error + (MonitorCheck.t * database) :=
  let row := MonitorCheck.mk fresh (nc_monitor_id v) (nc_status v)
                             (nc_response_time_ms v) (nc_error_message v)
                             now in
  if negb (fits_int4 (nc_response_time_ms v)) then
    inl numeric_value_out_of_range
  else if negb (own_check d uid row) then
    inl row_level_security_violation
  else if existsb (fun c => (MonitorCheck.id c =? fresh)%string)
                  (monitor_checks d) then
    inl unique_violation
  else if negb (existsb (fun m => (Monitor.id m =? nc_monitor_id v)%string)
                        (monitors d)) then
    inl foreign_key_violation
  else
    inr (row, mkDatabase (users d) (monitors d)
                         (append (monitor_checks d) row)).

(** The rows [delete from public.monitors where id = ... and user_id = ...]
    removes when run as the user [uid]. *)
Definition doomed (uid id user_id : uuid) (m : Monitor.t) : bool :=
  own_monitor uid m && (Monitor.id m =? id)%string
  && (Monitor.user_id m =? user_id)%string.

(** [references public.monitors(id) on delete cascade]: the checks that
    refer to a removed monitor go with it. *)
Definition cascades (removed : list Monitor.t) (c : MonitorCheck.t) : bool :=
  existsb (fun m => (Monitor.id m =? MonitorCheck.monitor_id c)%string)
          removed.

Definition delete_monitor (d : database) (uid id user_id : uuid) : database :=
  let removed := filter (doomed uid id user_id) (monitors d) in
  mkDatabase (users d)
             (filter (fun m => negb (doomed uid id user_id m)) (monitors d))
             (filter (fun c => negb (cascades removed c)) (monitor_checks d)).

(** [select ... from public.monitors where id = ...] as the user [uid]. *)
Definition select_by_id (d : database) (uid id : uuid) : list Monitor.t :=
  filter (fun m => (Monitor.id m =? id)%string) (visible_monitors d uid).

(** The constraints [001_init.sql] declares on the three tables: primary
    keys, foreign keys, the check on [type] and the range of [int]. *)
Record well_formed (d : database) : Prop := mkWellFormed {
  monitors_pkey : NoDup (map Monitor.id (monitors d));
  monitor_checks_pkey : NoDup (map MonitorCheck.id (monitor_checks d));
  monitors_user_id_fkey :
    forall m, In m (monitors d) -> In (Monitor.user_id m) (users d);
  monitor_checks_monitor_id_fkey :
    forall c, In c (monitor_checks d) ->
              exists m, In m (monitors d)
                        /\ Monitor.id m = MonitorCheck.monitor_id c;
  monitors_type_check :
    forall m, In m (monitors d) -> type_check (Monitor.type m) = true;
  monitors_interval_int4 :
    forall m, In m (monitors d) ->
              in_int4 (Monitor.interval_seconds m) = true;
  monitor_checks_latency_int4 :
    forall c, In c (monitor_checks d) ->
              fits_int4 (MonitorCheck.response_time_ms c) = true
}.

End Store.

(* ================================================================== *)
(** ** The edge functions: [runCheck] and [deleteMonitor] *)

Module Lifecycle.
Import JS Schema Store.
Import Edge(Response, mkResponse).

(** The calls of the two handlers; a filter on [id] carries the text the
    request gave. *)
Inductive call : Type :=
| from_monitors_select_single (id : string)
| from_monitor_checks_insert (v : new_check)
| from_monitors_delete (id : string) (user_id : uuid).

(** The error of a client call: one the database reports, the one it
    reports for a filter text that is no uuid, or the one [.single()]
    reports when the rows are not exactly one. *)
Inductive client_error : Type :=
| postgres (err : db_error)
| invalid_text_representation
| not_a_single_row.

Record reply (A : Type) : Type := mkReply {
  data : option A;
  error : option client_error
}.
Arguments mkReply {A} data error.
Arguments data {A} r.
Arguments error {A} r.

(** What the two handlers obtain from outside the database contents; the
    fields are those of [Edge.env], with the runtime of the probe. *)
Record env : Type := mkEnv {
  getUser_user : option uuid;
  getUser_error : option string;
  runtime : Probe.runtime;
  fault : call -> option db_error;
  uuid_generate_v4 : uuid;
  sql_now : timestamptz
}.

Record world : Type := mkWorld {
  db : database;
  calls : list call
}.

Definition H (A : Type) : Type := world -> A * world.

Definition ret {A} (a : A) : H A := fun w => (a, w).

Definition bind {A B} (m : H A) (k : A -> H B) : H B :=
  fun w => let (a, w') := m w in k a w'.

Declare Scope lifecycle_scope.
Delimit Scope lifecycle_scope with lifecycle.
Notation "'let*' x ':=' m 'in' k" := (bind m (fun x => k))
  (at level 10, x name, m at level 100, k at level 200) : lifecycle_scope.
Local Open Scope lifecycle_scope.

Definition record_call (c : call) (w : world) : world :=
  mkWorld (db w) (calls w ++ [c]).

Section Postgres.
(** The input function of the type [uuid]: the value a text denotes, if
    any. The column [id] is a [uuid], so the text of a filter on it is
    read by this function and the values are compared, not the texts. *)
Variable uuid_in : string -> option uuid.

Section Client.
Variable e : env.
Variable uid : uuid.

(** [.from("monitors").select(columns).eq("id", id).single()]; the
    handlers read only columns they select. *)
Definition select_single (id : string) : H (reply Monitor.t) :=
  fun w =>
    let w' := record_call (from_monitors_select_single id) w in
    match fault e (from_monitors_select_single id) with
    | Some err => (mkReply None (Some (postgres err)), w')
    | None =>
        match uuid_in id with
        | None => (mkReply None (Some invalid_text_representation), w')
        | Some id' =>
            match select_by_id (db w) uid id' with
            | [m] => (mkReply (Some m) None, w')
            | _ => (mkReply None (Some not_a_single_row), w')
            end
        end
    end.

(** [.from("monitor_checks").insert(v).select().single()] *)
Definition insert_check_single (v : new_check) : H (reply MonitorCheck.t) :=
  fun w =>
    let w' := record_call (from_monitor_checks_insert v) w in
    match fault e (from_monitor_checks_insert v) with
    | Some err => (mkReply None (Some (postgres err)), w')
    | None =>
        match insert_check (db w) uid (uuid_generate_v4 e) (sql_now e) v with
        | inl err => (mkReply None (Some (postgres err)), w')
        | inr (row, d') => (mkReply (Some row) None, mkWorld d' (calls w'))
        end
    end.

(** [.from("monitors").delete().eq("id", id).eq("user_id", user_id)];
    [user_id] is the id the authentication service gave, a uuid. *)
Definition delete_eq (id : string) (user_id : uuid) : H (reply unit) :=
  fun w =>
    let w' := record_call (from_monitors_delete id user_id) w in
    match fault e (from_monitors_delete id user_id) with
    | Some err => (mkReply None (Some (postgres err)), w')
    | None =>
        match uuid_in id with
        | None => (mkReply None (Some invalid_text_representation), w')
        | Some id' =>
            (mkReply None None,
             mkWorld (delete_monitor (db w) uid id' user_id) (calls w'))
        end
    end.
End Client.
End Postgres.

(** [interface RunCheckRequest], [interface DeleteMonitorRequest] *)
Record monitor_id_request : Type := mkIdRequest {
  monitor_id : option string
}.

Record request : Type := mkRequest {
  method : string;
  json : option monitor_id_request
}.

(** *** [runCheck/index.ts] *)

(** [interface CheckResult] *)
Module CheckResult.
Record t : Type := mk {
  monitor_id : string;
  status : Probe.check_status;
  response_time_ms : option Z;
  error_message : option string;
  checked_at : timestamptz
}.
End CheckResult.

Inductive check_body : Type :=
| check_no_body
| check_error (error : string)
| check_data (data : CheckResult.t).

Section Handlers.
Variable uuid_in : string -> option uuid.

Definition runCheck (e : env) (req : request) : H (Response check_body) :=
  if (method req =? "OPTIONS")%string then
    ret (mkResponse 204 check_no_body)
  else if negb (method req =? "POST")%string then
    ret (mkResponse 405 (check_error "Method not allowed"))
  else
    let internal := mkResponse 500 (check_error "Internal server error") in
    match getUser_error e, getUser_user e with
    | None, Some user =>
        match json req with
        | None => ret internal
        | Some body =>
            if falsy_string (monitor_id body) then
              ret (mkResponse 400
                     (check_error "Missing required field: monitor_id"))
            else
              let* found :=
                select_single uuid_in e user (Edge.text (monitor_id body)) in
              match error found, data found with
              | None, Some monitor =>
                  match fst (Probe.run_performCheck (runtime e)
                               (Monitor.url monitor) (Monitor.type monitor))
                  with
                  | Probe.Throw _ => ret internal
                  | Probe.Normal checkResult =>
                      let* inserted :=
                        insert_check_single e user
                          (mkNewCheck (Monitor.id monitor)
                             (Probe.status checkResult)
                             (Probe.response_time_ms checkResult)
                             (Probe.error_message checkResult)) in
                      match error inserted, data inserted with
                      | Some insertError, _ =>
                          ret (mkResponse 500
                                 (check_error "Failed to record check result"))
                      | None, None => ret internal
                      | None, Some insertedCheck =>
                          ret (mkResponse 200
                                 (check_data
                                    (CheckResult.mk
                                       (MonitorCheck.monitor_id insertedCheck)
                                       (MonitorCheck.status insertedCheck)
                                       (MonitorCheck.response_time_ms
                                          insertedCheck)
                                       (MonitorCheck.error_message
                                          insertedCheck)
                                       (MonitorCheck.checked_at
                                          insertedCheck))))
                      end
                  end
              | _, _ =>
                  ret (mkResponse 404
                         (check_error "Monitor not found or access denied"))
              end
        end
    | _, _ => ret (mkResponse 401 (check_error "Unauthorized - please log in"))
    end.

(** *** [deleteMonitor/index.ts] *)

Inductive delete_body : Type :=
| delete_no_body
| delete_error (error : string)
| deleted (message : string) (deleted_id : string).

Definition deleteMonitor (e : env) (req : request) : H (Response delete_body) :=
  if (method req =? "OPTIONS")%string then
    ret (mkResponse 204 delete_no_body)
  else if negb (method req =? "DELETE")%string then
    ret (mkResponse 405 (delete_error "Method not allowed"))
  else
    match getUser_error e, getUser_user e with
    | None, Some user =>
        match json req with
        | None => ret (mkResponse 500 (delete_error "Internal server error"))
        | Some body =>
            if falsy_string (monitor_id body) then
              ret (mkResponse 400
                     (delete_error "Missing required field: monitor_id"))
            else
              let* found :=
                select_single uuid_in e user (Edge.text (monitor_id body)) in
              match error found, data found with
              | None, Some monitorData =>
                  let* gone :=
                    delete_eq uuid_in e user (Edge.text (monitor_id body))
                              user in
                  match error gone with
                  | Some deleteError =>
                      ret (mkResponse 500
                             (delete_error "Failed to delete monitor"))
                  | None =>
                      ret (mkResponse 200
                             (deleted "Monitor deleted successfully"
                                      (Edge.text (monitor_id body))))
                  end
              | _, _ =>
                  ret (mkResponse 404
                         (delete_error "Monitor not found or access denied"))
              end
        end
    | _, _ => ret (mkResponse 401 (delete_error "Unauthorized - please log in"))
    end.

End Handlers.

End Lifecycle.

(* ================================================================== *)
(** ** The dashboard: pure parts of [MonitorCard] and of the page *)

Module Dashboard.
Import JS Schema.
Import Edge(MonitorWithStatus, mkWithStatus, monitor, latest_status).

(** [Number.isSafeInteger]: the integers a double holds exactly, with
    their neighbours. *)
Definition safe_integer (z : Z) : bool :=
  (-9007199254740991 <=? z) && (z <=? 9007199254740991).

(** [formatTime] of [MonitorCard.tsx], with [now.getTime()] and
    [date.getTime()] as arguments. The code computes on doubles. When the
    two time values and their difference are safe integers the
    subtraction is exact, and each [Math.floor(a / b)] is [a / b] on
    [Z]: the quotient is below 2^38, where a double is off by at most
    2^-16, less than the 1/60000 that separates a quotient which is not an
    integer from the next integer. An invalid date (time value NaN) and a
    difference that a double does not hold exactly are outside the model
    ([None]). *)
Definition formatTime (now date : Z) : option string :=
  if safe_integer now && safe_integer date && safe_integer (now - date)
  then
    let diffMs := now - date in
    let diffMins := diffMs / 60000 in
    if diffMins <? 1 then Some "just now"
    else if diffMins <? 60 then Some (number_to_string diffMins ++ "m ago")
    else
      let diffHours := diffMins / 60 in
      if diffHours <? 24 then Some (number_to_string diffHours ++ "h ago")
      else
        let diffDays := diffHours / 24 in
        Some (number_to_string diffDays ++ "d ago")
  else None.

(** [{ ...o, k: v }]: an own key keeps its place and takes the new value,
    a new key goes last. *)
Fixpoint assign (o : object) (k : string) (v : jsval) : object :=
  match o with
  | [] => [(k, v)]
  | (k', v') :: o' =>
      if (k' =? k)%string then (k', v) :: o' else (k', v') :: assign o' k v
  end.

(** The updater of [handleCheckCompleted]; [now] is the instant
    [new Date().toISOString()] denotes. *)
Definition handleCheckCompleted (now : timestamptz) (monitorId : string)
           (newStatus : Probe.check_status) (prev : list MonitorWithStatus)
  : list MonitorWithStatus :=
  map (fun m =>
         match (Monitor.id (monitor m) =? monitorId)%string,
               latest_status m with
         | true, Some latest =>
             mkWithStatus (monitor m)
               (Some (assign (assign latest "status"
                                     (Edge.status_json newStatus))
                             "checked_at" (JNum now)))
         | _, _ => m
         end) prev.

End Dashboard.

(* ================================================================== *)
(** ** Further notions and concrete scenarios *)

Module Terms.
Import Schema Store.
Definition signed_in (e : Lifecycle.env) (u : uuid) : Prop :=
  Lifecycle.getUser_error e = None /\ Lifecycle.getUser_user e = Some u.

(** The monitor id a request names. *)
Definition requested (req : Lifecycle.request) : option string :=
  match Lifecycle.json req with
  | Some body => Lifecycle.monitor_id body
  | None => None
  end.

(** The row [runCheck] stores for the probe result [r] of monitor [m]. *)
Definition recorded (e : Lifecycle.env) (m : Monitor.t)
           (r : Probe.check_result) : MonitorCheck.t :=
  MonitorCheck.mk (Lifecycle.uuid_generate_v4 e) (Monitor.id m)
                  (Probe.status r) (Probe.response_time_ms r)
                  (Probe.error_message r) (Lifecycle.sql_now e).

Definition as_CheckResult (c : MonitorCheck.t) : Lifecycle.CheckResult.t :=
  Lifecycle.CheckResult.mk (MonitorCheck.monitor_id c) (MonitorCheck.status c)
                           (MonitorCheck.response_time_ms c)
                           (MonitorCheck.error_message c)
                           (MonitorCheck.checked_at c).

(** The order of a listing: the row with the greater key comes first. *)
Definition newer_first {A} (key : A -> Z) (a b : A) : Prop := key b <= key a.
End Terms.

Module Scenarios.
Import JS Schema Store.

Definition no_fault (c : Lifecycle.call) : option db_error := None.

Definition insert_fault (c : Lifecycle.call) : option db_error :=
  match c with
  | Lifecycle.from_monitor_checks_insert _ => Some unavailable
  | _ => None
  end.

(** The user "u1" asks, the probe runs in [Samples.sample_runtime], and an
    insert draws the id "c3" at the instant 3000. *)
Definition owner_env : Lifecycle.env :=
  Lifecycle.mkEnv (Some "u1") None Samples.sample_runtime no_fault "c3" 3000.

Definition stranger_env : Lifecycle.env :=
  Lifecycle.mkEnv (Some "u2") None Samples.sample_runtime no_fault "c3" 3000.

Definition failing_store_env : Lifecycle.env :=
  Lifecycle.mkEnv (Some "u1") None Samples.sample_runtime insert_fault "c3"
                  3000.

Definition start_world : Lifecycle.world :=
  Lifecycle.mkWorld Samples.sample_db [].

(** A reading of uuid texts: "M1" is another spelling of "m1", and
    "not-a-uuid" denotes nothing. *)
Definition sample_uuid_in (text : string) : option uuid :=
  if (text =? "M1")%string then Some "m1"
  else if (text =? "not-a-uuid")%string then None
  else Some text.

Definition naming (method id : string) : Lifecycle.request :=
  Lifecycle.mkRequest method (Some (Lifecycle.mkIdRequest (Some id))).

Definition select_fault (c : Edge.db_call) : option db_error :=
  match c with
  | Edge.from_monitors_select => Some unavailable
  | _ => None
  end.

Definition broken_listing_env : Edge.env :=
  Edge.mkEnv (Some "u1") None Samples.toy_URL_parse select_fault "m3" 300.

(** The dashboard's list after a listing of [Samples.sample_db]. *)
Definition shown : list Edge.MonitorWithStatus :=
  [ Edge.mkWithStatus Samples.m2 None;
    Edge.mkWithStatus Samples.m1
      (Some [ ("status", JStr "down"); ("checked_at", JNum 2000);
              ("response_time_ms", JNum 80) ]) ].

End Scenarios.

(* ================================================================== *)
(** ** The probe *)

Module ProbeFacts.
Import JS Probe Notions.

Lemma status_cases (s : check_status) : s = up \/ s = down.
Proof. destruct s; auto. Qed.

Lemma eqb_neq_false (a b : string) : a <> b -> (a =? b)%string = false.
Proof. intro H. apply String.eqb_neq. exact H. Qed.



(** *** The exchanges of one fetch *)

Lemma http_fetch_eq (rt : runtime) (hops : nat) (url : string)
      (method : http_method) (due : N) (s : pstate) :
  http_fetch rt hops url method due s
  = let abort := (due + timer_lag rt)%N in
    let at_time t := mkState t (issued s) in
    let timed_out := (Throw TimeoutError, at_time abort) in
    match net rt url method with
    | Responds d r location =>
        if (elapsed s + d <? abort)%N then
          match location with
          | Some target =>
              if redirect_status (resp_status r) then
                match hops with
                | O => (Throw TooManyRedirects, at_time (elapsed s + d)%N)
                | S hops' =>
                    http_fetch rt hops' target method due
                               (at_time (elapsed s + d)%N)
                end
              else (Normal r, at_time (elapsed s + d)%N)
          | None => (Normal r, at_time (elapsed s + d)%N)
          end
        else timed_out
    | Fails d e =>
        if (elapsed s + d <? abort)%N
        then (Throw e, at_time (elapsed s + d)%N)
        else timed_out
    | Silent => timed_out
    end.
Proof. destruct hops; reflexivity. Qed.


(** A fetch leaves the log of calls alone and ends by the time the
    deadline's timer has run. *)
Lemma http_fetch_state (rt : runtime) (method : http_method) (due : N)
      (hops : nat) :
  forall url s,
    issued (snd (http_fetch rt hops url method due s)) = issued s
    /\ ((elapsed s <= due + timer_lag rt)%N ->
        (elapsed (snd (http_fetch rt hops url method due s))
         <= due + timer_lag rt)%N).
Proof.
  induction hops as [| hops IH]; intros url s; rewrite http_fetch_eq;
    cbv zeta;
    destruct (net rt url method) as [d r [target | ] | d err | ];
    try destruct (elapsed s + d <? due + timer_lag rt)%N eqn:Hd;
    try destruct (redirect_status (resp_status r));
    try apply N.ltb_lt in Hd;
    cbn [fst snd issued elapsed];
    try (split; [reflexivity | intros; lia]).
  destruct (IH target (mkState (elapsed s + d)%N (issued s))) as [Hi He].
  cbn [issued elapsed] in Hi, He. split; [exact Hi | ].
  intros _. apply He. lia.
Qed.

Lemma fetch_issued (rt : runtime) (url : string) (method : http_method)
      (ms : N) (s : pstate) :
  issued (snd (fetch rt url method ms s))
  = (issued s ++ [mkFetch url method ms])%list.
Proof.
  unfold fetch. destruct (http_fetch rt 20 url method _ s). reflexivity.
Qed.

Lemma fetch_first (rt : runtime) (url : string) (method : http_method)
      (ms : N) :
  let first := net rt url method in
  (forall d r loc,
      first = Responds d r loc -> (d < ms)%N ->
      loc = None \/ redirect_status (resp_status r) = false ->
      fetched rt url method ms = Normal r)
  /\ (forall d e, first = Fails d e -> (d < ms)%N ->
                  fetched rt url method ms = Throw e)
  /\ (first = Silent
      \/ (exists d r loc,
             first = Responds d r loc /\ (ms + timer_lag rt <= d)%N)
      \/ (exists d e, first = Fails d e /\ (ms + timer_lag rt <= d)%N) ->
      fetched rt url method ms = Throw TimeoutError).
Proof.
  cbv zeta. unfold fetched, fetch, start. cbn [elapsed issued].
  rewrite http_fetch_eq. cbv zeta. cbn [elapsed issued].
  cbn [N.add].
  split; [ | split].
  - intros d r loc -> Hd Hloc.
    assert (Hb : (d <? ms + timer_lag rt)%N = true)
      by (apply N.ltb_lt; lia).
    rewrite Hb.
    destruct loc as [target | ]; [ | reflexivity].
    destruct Hloc as [Hloc | Hloc]; [discriminate | ].
    rewrite Hloc. reflexivity.
  - intros d e -> Hd.
    assert (Hb : (d <? ms + timer_lag rt)%N = true)
      by (apply N.ltb_lt; lia).
    rewrite Hb. reflexivity.
  - intros [-> | [(d & r & loc & -> & Hd) | (d & e & -> & Hd)]];
      try reflexivity; apply N.ltb_ge in Hd; rewrite Hd; reflexivity.
Qed.

(** A first exchange that fails makes the fetch reject, with the failure
    or with the timeout. *)
Lemma fetch_fails (rt : runtime) (url : string) (method : http_method)
      (ms d : N) (e : thrown) :
  net rt url method = Fails d e ->
  fetched rt url method ms = Throw e
  \/ fetched rt url method ms = Throw TimeoutError.
Proof.
  intro Hnet. unfold fetched, fetch, start. cbn [elapsed issued].
  rewrite http_fetch_eq. cbv zeta. cbn [elapsed issued]. rewrite Hnet.
  destruct (_ <? _)%N; [left | right]; reflexivity.
Qed.


(** *** One run of the probe, by what its fetch settles with *)


Lemma http_run (rt : runtime) (url type : string) :
  type = "http" \/ type = "https" ->
  run_performCheck rt url type
  = match fetch rt url GET 10000 start with
    | (Normal resp, s) =>
        let t := Date_now rt (elapsed s) - Date_now rt 0 in
        (Normal
           (if ok resp
               || ((300 <=? resp_status resp) && (resp_status resp <? 400))
            then mkResult up (Some t) None
            else mkResult down (Some t)
                   (Some ("HTTP " ++ number_to_string (resp_status resp)
                            ++ ": " ++ resp_statusText resp))), s)
    | (Throw e, s) => caught rt e s
    end.
Proof.
  intros [-> | ->];
    unfold run_performCheck, performCheck, performCheck_try;
    cbn [String.eqb Ascii.eqb Bool.eqb orb];
    unfold bind at 1; unfold now at 1; cbn [elapsed start];
    fold start;
    destruct (fetch rt url GET 10000 start) as [[resp | e] s] eqn:Hf;
    unfold try_catch, bind; rewrite Hf; try reflexivity;
    unfold now, ret; cbv zeta;
    destruct (ok resp || _); reflexivity.
Qed.

Lemma ping_run (rt : runtime) (url : string) :
  run_performCheck rt url "ping"
  = match URL_parse rt url with
    | None => caught rt (ErrorObject ("Invalid URL: '" ++ url ++ "'")) start
    | Some u =>
        match fetch rt (protocol u ++ "//" ++ host u) HEAD 5000 start with
        | (Normal resp, s) =>
            (Normal (mkResult up
                       (Some (Date_now rt (elapsed s) - Date_now rt 0))
                       None), s)
        | (Throw e, s) => caught rt e s
        end
    end.
Proof.
  unfold run_performCheck, performCheck, performCheck_try.
  cbn [String.eqb Ascii.eqb Bool.eqb orb].
  unfold bind at 1; unfold now at 1; cbn [elapsed start]; fold start.
  unfold try_catch, bind, new_URL.
  destruct (URL_parse rt url) as [u | ]; [ | reflexivity].
  unfold ret at 1.
  destruct (fetch rt _ HEAD 5000 start) as [[resp | e] s]; reflexivity.
Qed.

Lemma unsupported_run (rt : runtime) (url type : string) :
  type <> "http" -> type <> "https" -> type <> "ping" ->
  run_performCheck rt url type
  = (Normal (mkResult down None (Some "Unsupported monitor type")), start).
Proof.
  intros H1 H2 H3.
  unfold run_performCheck, performCheck, performCheck_try.
  rewrite (eqb_neq_false _ _ H1), (eqb_neq_false _ _ H2),
    (eqb_neq_false _ _ H3). reflexivity.
Qed.

(** Every run is one of the three. *)
Lemma type_cases (type : string) :
  (type = "http" \/ type = "https") \/ type = "ping"
  \/ (type <> "http" /\ type <> "https" /\ type <> "ping").
Proof.
  destruct (String.eqb_spec type "http"); [auto | ].
  destruct (String.eqb_spec type "https"); [auto | ].
  destruct (String.eqb_spec type "ping"); auto.
Qed.

(** C3. For every runtime, url and type the probe returns one result,
    whose status is [up] or [down], and does not throw; for a type other
    than "http", "https" and "ping" the result is [down] with the message
    "Unsupported monitor type", no latency and no request issued. *)
Theorem performCheck_never_throws (rt : runtime) (url type : string) :
  (exists r s, run_performCheck rt url type = (Normal r, s)
               /\ (status r = up \/ status r = down))
  /\ (type <> "http" -> type <> "https" -> type <> "ping" ->
      run_performCheck rt url type
      = (Normal (mkResult down None (Some "Unsupported monitor type")),
         start)).
Proof.
  split; [ | apply unsupported_run].
  destruct (type_cases type) as [Hh | [-> | (H1 & H2 & H3)]].
  - rewrite (http_run rt url type Hh).
    destruct (fetch rt url GET 10000 start) as [[resp | e] s];
      eexists; eexists; (split; [reflexivity | apply status_cases]).
  - rewrite ping_run. destruct (URL_parse rt url) as [u | ].
    + destruct (fetch rt _ HEAD 5000 start) as [[resp | e] s];
        eexists; eexists; (split; [reflexivity | apply status_cases]).
    + eexists; eexists; (split; [reflexivity | apply status_cases]).
  - rewrite (unsupported_run rt url type H1 H2 H3).
    eexists; eexists; (split; [reflexivity | apply status_cases]).
Qed.

(** The probe of a monitor of type "tcp". *)
Lemma performCheck_never_throws_witness :
  ("tcp" <> "http" /\ "tcp" <> "https" /\ "tcp" <> "ping") /\
  run_performCheck Samples.sample_runtime "tcp://db.test:5432" "tcp"
  = (Normal (mkResult down None (Some "Unsupported monitor type")), start).
Proof.
  split; [ repeat split; discriminate | ].
  apply (performCheck_never_throws Samples.sample_runtime
           "tcp://db.test:5432" "tcp"); discriminate.
Defined.



(** C5, amended. Every result of the probe satisfies the field invariant:
    an [up] result has no error message and has a latency, which is the
    clock's reading when the fetch has settled minus its reading at the
    start, hence non-negative when the clock does not run backwards during
    the probe; a [down] result has an error message, or else a latency and
    no error message. *)
Theorem performCheck_result_invariant (rt : runtime) (url type : string) :
  exists r s,
    run_performCheck rt url type = (Normal r, s)
    /\ (status r = up ->
        exists ms, response_time_ms r = Some ms
                   /\ ms = Date_now rt (elapsed s) - Date_now rt 0
                   /\ (clock_monotone rt -> 0 <= ms)
                   /\ error_message r = None)
    /\ (status r = down ->
        error_message r <> None
        \/ (response_time_ms r <> None /\ error_message r = None)).
Proof.
  assert (Hpos : forall s, clock_monotone rt ->
                           0 <= Date_now rt (elapsed s) - Date_now rt 0).
  { intros s Hm. specialize (Hm 0%N (elapsed s) (N.le_0_l _)). lia. }
  assert (Hup : forall (s : pstate),
             exists r s',
               (Normal (mkResult up
                          (Some (Date_now rt (elapsed s) - Date_now rt 0))
                          None), s) = (Normal r, s')
               /\ (status r = up ->
                   exists ms, response_time_ms r = Some ms
                              /\ ms = Date_now rt (elapsed s')
                                      - Date_now rt 0
                              /\ (clock_monotone rt -> 0 <= ms)
                              /\ error_message r = None)
               /\ (status r = down ->
                   error_message r <> None
                   \/ (response_time_ms r <> None /\ error_message r = None))).
  { intro s. eexists; eexists; split; [reflexivity | ].
    cbn [status response_time_ms error_message].
    split; [intros _; eexists; eauto | discriminate]. }
  assert (Hdown : forall l m (s : pstate),
             exists r s',
               (Normal (mkResult down l (Some m)), s) = (Normal r, s')
               /\ (status r = up ->
                   exists ms, response_time_ms r = Some ms
                              /\ ms = Date_now rt (elapsed s')
                                      - Date_now rt 0
                              /\ (clock_monotone rt -> 0 <= ms)
                              /\ error_message r = None)
               /\ (status r = down ->
                   error_message r <> None
                   \/ (response_time_ms r <> None /\ error_message r = None))).
  { intros l m s. eexists; eexists; split; [reflexivity | ].
    cbn [status response_time_ms error_message].
    split; [discriminate | intros _; left; discriminate]. }
  destruct (type_cases type) as [Hh | [-> | (H1 & H2 & H3)]].
  - rewrite (http_run rt url type Hh).
    destruct (fetch rt url GET 10000 start) as [[resp | e] s];
      [ | apply Hdown]. cbv zeta.
    destruct (ok resp || _); [apply Hup | apply Hdown].
  - rewrite ping_run. destruct (URL_parse rt url) as [u | ];
      [ | apply Hdown].
    destruct (fetch rt _ HEAD 5000 start) as [[resp | e] s];
      [apply Hup | apply Hdown].
  - rewrite (unsupported_run rt url type H1 H2 H3). apply Hdown.
Qed.

(** A reachable target under a clock that advances with real time. *)
Lemma performCheck_result_invariant_witness :
  clock_monotone Samples.sample_runtime
  /\ exists r s,
    run_performCheck Samples.sample_runtime "https://example.test" "https"
    = (Normal r, s)
    /\ exists ms, response_time_ms r = Some ms /\ 0 <= ms
                  /\ error_message r = None.
Proof.
  assert (Hm : clock_monotone Samples.sample_runtime).
  { intros a b Hab. cbn [Date_now Samples.sample_runtime]. lia. }
  split; [exact Hm | ].
  destruct (performCheck_result_invariant Samples.sample_runtime
              "https://example.test" "https") as (r & s & Hrun & Hup & _).
  exists r, s. split; [exact Hrun | ].
  assert (Hs : status r = up).
  { vm_compute in Hrun. injection Hrun as <- _. reflexivity. }
  destruct (Hup Hs) as (ms & Hms & _ & Hnn & Herr).
  exists ms. split; [exact Hms | split; [exact (Hnn Hm) | exact Herr]].
Defined.

(** C5, counterexample. Under a clock that reads 1000 when the probe
    starts and 995 when the answer has arrived, the probe of a target that
    answers 200 is [up] with a latency of -5. *)
Lemma negative_latency_counterexample :
  run_performCheck Samples.stepping_back_runtime "https://example.test" "https"
  = (Normal (mkResult up (Some (-5)) None),
     mkState 7 [mkFetch "https://example.test" GET 10000]).
Proof. reflexivity. Qed.



End ProbeFacts.

(* ================================================================== *)
(** ** The check history *)

Module SchemaFacts.
Import Schema Notions.


Section OrderBy.
Context {A : Type} (key : A -> Z).

Lemma insert_desc_perm (x : A) (l : list A) :
  Permutation (insert_desc key x l) (x :: l).
Proof.
  induction l as [| y l IH]; simpl.
  - apply Permutation_refl.
  - destruct (key y <=? key x).
    + apply Permutation_refl.
    + rewrite IH. apply perm_swap.
Qed.

Lemma order_by_desc_perm (l : list A) :
  Permutation (order_by_desc key l) l.
Proof.
  induction l as [| x l IH]; simpl.
  - constructor.
  - rewrite insert_desc_perm. constructor. exact IH.
Qed.

(** The first row of the ordered table carries the greatest key. *)
Lemma order_by_desc_head (l : list A) (h : A) (t : list A) :
  order_by_desc key l = h :: t ->
  In h l /\ forall y, In y l -> key y <= key h.
Proof.
  revert h t. induction l as [| x l IH]; intros h t; simpl.
  - discriminate.
  - destruct (order_by_desc key l) as [| h' t'] eqn:Hl; simpl.
    + intros [= <- <-].
      assert (l = []) as ->.
      { apply Permutation_nil. rewrite <- Hl. apply order_by_desc_perm. }
      split; [now left | intros y [<- | []]; lia].
    + destruct (IH h' t' eq_refl) as [Hin Hmax].
      destruct (key h' <=? key x) eqn:Hcmp.
      * apply Z.leb_le in Hcmp. intros [= <- <-].
        split; [now left | ].
        intros y [<- | Hy]; [lia | ]. specialize (Hmax y Hy). lia.
      * apply Z.leb_gt in Hcmp. intros [= <- <-].
        split; [now right | ].
        intros y [<- | Hy]; [lia | auto].
Qed.

Lemma order_by_desc_nil (l : list A) :
  order_by_desc key l = [] -> l = [].
Proof.
  intro H. apply Permutation_nil. rewrite <- H.
  apply order_by_desc_perm.
Qed.
End OrderBy.

Lemma in_checks_of (m : uuid) (table : list MonitorCheck.t)
      (c : MonitorCheck.t) :
  In c (checks_of m table) <-> In c table /\ MonitorCheck.monitor_id c = m.
Proof.
  unfold checks_of. rewrite filter_In, String.eqb_eq. reflexivity.
Qed.

(** What the function returns, by whether the monitor has a row. *)
Lemma latest_cases (table : list MonitorCheck.t) (m : uuid) :
  (get_latest_monitor_status table m = []
   /\ forall c, In c table -> MonitorCheck.monitor_id c <> m)
  \/ (exists c, In c table /\ MonitorCheck.monitor_id c = m
                /\ get_latest_monitor_status table m = [select_status c]
                /\ forall c', In c' table -> MonitorCheck.monitor_id c' = m ->
                              MonitorCheck.checked_at c'
                              <= MonitorCheck.checked_at c).
Proof.
  unfold get_latest_monitor_status, limit.
  fold (checks_of m table).
  destruct (order_by_desc StatusRow.checked_at
              (map select_status (checks_of m table))) as [| h t] eqn:Ho.
  - left. split; [reflexivity | ].
    apply order_by_desc_nil, map_eq_nil in Ho.
    intros c Hin Hm.
    assert (Hc : In c (checks_of m table)) by (apply in_checks_of; auto).
    rewrite Ho in Hc. exact Hc.
  - right. apply order_by_desc_head in Ho. destruct Ho as [Hin Hmax].
    apply in_map_iff in Hin. destruct Hin as (c & <- & Hc).
    apply in_checks_of in Hc. destruct Hc as [Hc Hm].
    exists c. repeat split; auto.
    intros c' Hc' Hm'.
    apply (Hmax (select_status c')).
    apply in_map, in_checks_of. auto.
Qed.

Lemma fold_append (t0 rows : list MonitorCheck.t) :
  fold_left append rows t0 = (t0 ++ rows)%list.
Proof.
  revert t0. induction rows as [| r rows IH]; intro t0; simpl.
  - now rewrite app_nil_r.
  - rewrite IH. unfold append. now rewrite <- app_assoc.
Qed.

Lemma NoDup_map_injective {A B} (f : A -> B) (l : list A) (x y : A) :
  NoDup (map f l) -> In x l -> In y l -> f x = f y -> x = y.
Proof.
  induction l as [| a l IH]; simpl; [contradiction | ].
  intros Hnd Hx Hy Hf. inversion Hnd as [| ? ? Hnotin Hnd']; subst.
  destruct Hx as [-> | Hx], Hy as [-> | Hy]; auto.
  - exfalso. apply Hnotin. rewrite Hf. now apply in_map.
  - exfalso. apply Hnotin. rewrite <- Hf. now apply in_map.
Qed.

(** Two tables with the same rows agree on the latest timestamp. *)
Lemma latest_perm (table table' : list MonitorCheck.t) (m : uuid) :
  Permutation table table' ->
  map StatusRow.checked_at (get_latest_monitor_status table m)
  = map StatusRow.checked_at (get_latest_monitor_status table' m)
  /\ (NoDup (map MonitorCheck.checked_at (checks_of m table)) ->
      get_latest_monitor_status table m
      = get_latest_monitor_status table' m).
Proof.
  intro Hp.
  destruct (latest_cases table m) as [[E1 N1] | (c1 & I1 & M1 & E1 & X1)];
    destruct (latest_cases table' m) as [[E2 N2] | (c2 & I2 & M2 & E2 & X2)];
    rewrite E1, E2.
  - split; reflexivity.
  - exfalso. apply (N1 c2); auto.
    apply Permutation_in with (l := table'); auto using Permutation_sym.
  - exfalso. apply (N2 c1); auto.
    apply Permutation_in with (l := table); auto.
  - assert (I1' : In c1 table')
      by (apply Permutation_in with (l := table); auto).
    assert (I2' : In c2 table)
      by (apply Permutation_in with (l := table'); auto using Permutation_sym).
    assert (Ht : MonitorCheck.checked_at c1 = MonitorCheck.checked_at c2).
    { specialize (X1 c2 I2' M2). specialize (X2 c1 I1' M1). lia. }
    split.
    + simpl. now rewrite Ht.
    + intro Hnd.
      assert (c1 = c2) as ->; [ | reflexivity].
      apply (NoDup_map_injective MonitorCheck.checked_at (checks_of m table));
        auto; apply in_checks_of; auto.
Qed.

(** C2, amended. After any sequence of appends to the check history, the
    function returns no row for a monitor without checks and otherwise
    exactly one row, made of the monitor's id and of the [status] and the
    [checked_at] of a check of that monitor whose [checked_at] is
    greatest. Appending the same rows in another order leaves the returned
    timestamp unchanged, and the returned row unchanged when the monitor's
    timestamps are pairwise distinct: recency is decided by [checked_at],
    not by the order of insertion. *)
Theorem latest_is_max_checked_at
        (t0 appended : list MonitorCheck.t) (m : uuid) :
  let table := fold_left append appended t0 in
  ((forall c, In c table -> MonitorCheck.monitor_id c <> m) ->
   get_latest_monitor_status table m = [])
  /\ ((exists c, In c table /\ MonitorCheck.monitor_id c = m) ->
      exists c, In c table /\ MonitorCheck.monitor_id c = m
                /\ get_latest_monitor_status table m
                   = [StatusRow.mk m (MonitorCheck.status c)
                                   (MonitorCheck.checked_at c)]
                /\ forall c', In c' table -> MonitorCheck.monitor_id c' = m ->
                              MonitorCheck.checked_at c'
                              <= MonitorCheck.checked_at c)
  /\ (forall appended',
         Permutation appended appended' ->
         let table' := fold_left append appended' t0 in
         map StatusRow.checked_at (get_latest_monitor_status table m)
         = map StatusRow.checked_at (get_latest_monitor_status table' m)
         /\ (NoDup (map MonitorCheck.checked_at (checks_of m table)) ->
             get_latest_monitor_status table m
             = get_latest_monitor_status table' m)).
Proof.
  intro table. split; [ | split].
  - intro Hnone.
    destruct (latest_cases table m) as [[E _] | (c & I & M & _)]; auto.
    exfalso. exact (Hnone c I M).
  - intros (c0 & I0 & M0).
    destruct (latest_cases table m) as [[_ N] | (c & I & M & E & X)].
    + exfalso. exact (N c0 I0 M0).
    + exists c. split; [exact I | split; [exact M | split; [ | exact X]]].
      rewrite E. unfold select_status. rewrite M. reflexivity.
  - intros appended' Hp table'. apply latest_perm.
    unfold table, table'. rewrite !fold_append.
    apply Permutation_app_head. exact Hp.
Qed.

(** The newer check [c2] is appended before the older [c1]. *)
Lemma latest_is_max_checked_at_witness :
  (exists c, In c (fold_left append [Samples.c2; Samples.c1] [])
             /\ MonitorCheck.monitor_id c = "m1")
  /\ exists c,
    get_latest_monitor_status
      (fold_left append [Samples.c2; Samples.c1] []) "m1"
    = [StatusRow.mk "m1" (MonitorCheck.status c) (MonitorCheck.checked_at c)]
    /\ forall c', In c' (fold_left append [Samples.c2; Samples.c1] []) ->
                  MonitorCheck.monitor_id c' = "m1" ->
                  MonitorCheck.checked_at c' <= MonitorCheck.checked_at c.
Proof.
  assert (H : exists c, In c (fold_left append [Samples.c2; Samples.c1] [])
                        /\ MonitorCheck.monitor_id c = "m1").
  { exists Samples.c1. split; [right; left; reflexivity | reflexivity]. }
  split; [exact H | ].
  destruct (proj1 (proj2 (latest_is_max_checked_at
                            [] [Samples.c2; Samples.c1] "m1")) H)
    as (c & _ & _ & E & Hmax).
  exists c. split; [exact E | exact Hmax].
Defined.

(** C2, counterexample. Two histories whose only check differs in id,
    latency and error message give the same result: the row returned
    holds three columns of the most recent check, not the check. *)
Lemma latest_is_not_the_check :
  let a := MonitorCheck.mk "c1" "m1" Probe.down (Some 120) None 1000 in
  let b := MonitorCheck.mk "c9" "m1" Probe.down (Some 80)
                           (Some "HTTP 500: Internal Server Error") 1000 in
  a <> b
  /\ get_latest_monitor_status [a] "m1" = [StatusRow.mk "m1" Probe.down 1000]
  /\ get_latest_monitor_status [b] "m1" = [StatusRow.mk "m1" Probe.down 1000].
Proof.
  cbv zeta. split; [discriminate | split; reflexivity].
Qed.
End SchemaFacts.

Module EdgeFacts.
Import JS Schema Edge Notions.

Lemma with_latest_status_run (e : env) (u : uuid) (m : Monitor.t) (w : world) :
  with_latest_status e u m w
  = (annotate e u (db w) m, record_call (lookup_call m) w).
Proof.
  unfold annotate, with_latest_status, bind, rpc_latest, ret, lookup_call.
  simpl. destruct (fault e _); reflexivity.
Qed.

Lemma Promise_all_map_run (e : env) (u : uuid) (ms : list Monitor.t)
      (w : world) :
  Promise_all_map (with_latest_status e u) ms w
  = (map (annotate e u (db w)) ms,
     mkWorld (db w) (calls w ++ map lookup_call ms)).
Proof.
  revert w. induction ms as [| m ms IH]; intro w; simpl.
  - unfold ret. rewrite app_nil_r. destruct w; reflexivity.
  - unfold bind at 1. rewrite with_latest_status_run.
    unfold bind at 1. rewrite IH. unfold ret, record_call. simpl.
    rewrite <- app_assoc. reflexivity.
Qed.

(** The successful run of the listing. *)
Lemma getMonitors_run (e : env) (u : uuid) (w : world) :
  authenticated e u ->
  fault e from_monitors_select = None ->
  getMonitors e "GET" w
  = (mkResponse 200
       (list_data (map (annotate e u (db w)) (listed (db w) u))
                  (Z.of_nat (List.length (listed (db w) u)))),
     mkWorld (db w)
             (calls w ++ from_monitors_select
                      :: map lookup_call (listed (db w) u))).
Proof.
  intros [He Hu] Hf. unfold getMonitors. simpl. rewrite He, Hu.
  unfold bind at 1. unfold select_monitors. rewrite Hf. simpl.
  unfold bind. rewrite Promise_all_map_run. unfold ret, record_call. simpl.
  rewrite length_map, <- app_assoc. reflexivity.
Qed.

Lemma annotate_monitor (e : env) (u : uuid) (d : database) (m : Monitor.t) :
  monitor (annotate e u d m) = m.
Proof.
  unfold annotate, with_latest_status, bind, rpc_latest, ret. simpl.
  destruct (fault e _); reflexivity.
Qed.

Lemma annotate_fault (e : env) (u : uuid) (d : database) (m : Monitor.t) :
  fault e (lookup_call m) <> None ->
  latest_status (annotate e u d m) = None.
Proof.
  unfold annotate, with_latest_status, bind, rpc_latest, ret, lookup_call.
  simpl. destruct (fault e _); [reflexivity | congruence].
Qed.

Lemma annotate_ok (e : env) (u : uuid) (d : database) (m : Monitor.t) :
  fault e (lookup_call m) = None ->
  latest_status (annotate e u d m)
  = match get_latest_monitor_status (visible_checks d u) (Monitor.id m) with
    | [] => None
    | r :: _ =>
        Some [ ("status", status_json (StatusRow.status r));
               ("checked_at", JNum (StatusRow.checked_at r));
               ("response_time_ms", JUndefined) ]
    end.
Proof.
  unfold annotate, with_latest_status, bind, rpc_latest, ret, lookup_call.
  simpl. intros ->. simpl.
  destruct (get_latest_monitor_status _ _); reflexivity.
Qed.

Lemma filter_filter_implied {A} (p q : A -> bool) (l : list A) :
  (forall x, In x l -> p x = true -> q x = true) ->
  filter p (filter q l) = filter p l.
Proof.
  induction l as [| a l IH]; intro H; simpl; [reflexivity | ].
  assert (IH' : filter p (filter q l) = filter p l).
  { apply IH. intros x Hx. apply H. now right. }
  destruct (q a) eqn:Hq; simpl.
  - now rewrite IH'.
  - destruct (p a) eqn:Hp; [ | exact IH'].
    rewrite (H a (or_introl eq_refl) Hp) in Hq. discriminate.
Qed.

(** Row level security hides none of the checks of a monitor the caller
    owns. *)
Lemma latest_visible (d : database) (u : uuid) (m : Monitor.t) :
  In m (monitors d) -> Monitor.user_id m = u ->
  get_latest_monitor_status (visible_checks d u) (Monitor.id m)
  = get_latest_monitor_status (monitor_checks d) (Monitor.id m).
Proof.
  intros Hin Hu. unfold get_latest_monitor_status, visible_checks.
  rewrite filter_filter_implied; [reflexivity | ].
  intros c _ Hc. apply String.eqb_eq in Hc.
  unfold own_check. apply existsb_exists. exists m. split; [exact Hin | ].
  rewrite Hc, Hu, !String.eqb_refl. reflexivity.
Qed.

Lemma listed_owned (d : database) (u : uuid) (m : Monitor.t) :
  In m (listed d u) -> In m (monitors d) /\ Monitor.user_id m = u.
Proof.
  unfold listed, visible_monitors. intro H.
  apply (Permutation_in _ (SchemaFacts.order_by_desc_perm _ _)) in H.
  apply filter_In in H. destruct H as [Hin Hown].
  unfold own_monitor in Hown. apply String.eqb_eq in Hown. auto.
Qed.

(** The annotation of a listed monitor, by cases. *)
Lemma annotate_listed (e : env) (u : uuid) (d : database) (m : Monitor.t) :
  In m (listed d u) ->
  fault e (lookup_call m) = None ->
  (latest_status (annotate e u d m) = None /\ ~ has_checks d m)
  \/ (exists c, most_recent d m c
                /\ latest_status (annotate e u d m)
                   = Some [ ("status", status_json (MonitorCheck.status c));
                            ("checked_at", JNum (MonitorCheck.checked_at c));
                            ("response_time_ms", JUndefined) ]).
Proof.
  intros Hl Hf. rewrite (annotate_ok e u d m Hf).
  destruct (listed_owned d u m Hl) as [Hin Hu].
  rewrite (latest_visible d u m Hin Hu).
  destruct (SchemaFacts.latest_cases (monitor_checks d) (Monitor.id m))
    as [[E N] | (c & I & M & E & X)]; rewrite E.
  - left. split; [reflexivity | ]. intros (c & I & M). exact (N c I M).
  - right. exists c. split; [ | reflexivity]. repeat split; auto.
Qed.

(** C6, amended. For an authenticated caller whose monitors are fetched,
    the listing answers 200 with one entry per monitor of the caller,
    newest first. When the lookup of an entry's monitor succeeds and the
    monitor has checks, [latest_status] carries the [status] and the
    [checked_at] of a most recent check. [latest_status] is null exactly
    when the lookup fails or the monitor has no check. *)
Theorem listed_latest_status (e : env) (u : uuid) (w : world) :
  authenticated e u ->
  fault e from_monitors_select = None ->
  exists entries w',
    getMonitors e "GET" w
    = (mkResponse 200 (list_data entries (Z.of_nat (List.length entries))), w')
    /\ map monitor entries = listed (db w) u
    /\ forall x, In x entries ->
         (fault e (lookup_call (monitor x)) = None ->
          has_checks (db w) (monitor x) ->
          exists c obj,
            most_recent (db w) (monitor x) c
            /\ latest_status x = Some obj
            /\ get obj "status" = status_json (MonitorCheck.status c)
            /\ get obj "checked_at" = JNum (MonitorCheck.checked_at c))
         /\ (latest_status x = None <->
             fault e (lookup_call (monitor x)) <> None
             \/ ~ has_checks (db w) (monitor x)).
Proof.
  intros Ha Hf. rewrite (getMonitors_run e u w Ha Hf).
  eexists; eexists; split; [ rewrite length_map; reflexivity | ].
  split.
  - rewrite map_map. erewrite map_ext; [apply map_id | ].
    intro m. apply annotate_monitor.
  - intros x Hx. apply in_map_iff in Hx. destruct Hx as (m & <- & Hm).
    rewrite annotate_monitor.
    destruct (fault e (lookup_call m)) as [err | ] eqn:Hfault.
    + split; [discriminate | ].
      split; [intros _; left; discriminate | intros _ ].
      apply annotate_fault. rewrite Hfault. discriminate.
    + destruct (annotate_listed e u (db w) m Hm Hfault)
        as [[E N] | (c & Hc & E)]; rewrite E.
      * split; [intros _ Hh; contradiction | ].
        split; [intros _; right; exact N | reflexivity].
      * split.
        -- intros _ _. exists c. eexists. split; [exact Hc | ].
           split; [reflexivity | split; reflexivity].
        -- split; [discriminate | ].
           intros [Hn | Hn]; [congruence | ].
           exfalso. apply Hn. destruct Hc as (I & M & _). exists c. auto.
Qed.

(** C10. For an authenticated caller whose monitors are fetched, the
    listing answers 200 with every monitor of the caller even when
    per-monitor lookups fail: an entry whose lookup fails has
    [latest_status] null, as has an entry whose monitor was never
    checked. *)
Theorem lookup_failure_swallowed (e : env) (u : uuid) (w : world) :
  authenticated e u ->
  fault e from_monitors_select = None ->
  exists entries w',
    getMonitors e "GET" w
    = (mkResponse 200 (list_data entries (Z.of_nat (List.length entries))), w')
    /\ map monitor entries = listed (db w) u
    /\ (forall x, In x entries ->
                  fault e (lookup_call (monitor x)) <> None ->
                  latest_status x = None)
    /\ (forall x, In x entries ->
                  fault e (lookup_call (monitor x)) = None ->
                  ~ has_checks (db w) (monitor x) ->
                  latest_status x = None).
Proof.
  intros Ha Hf. rewrite (getMonitors_run e u w Ha Hf).
  eexists; eexists; split; [ rewrite length_map; reflexivity | ].
  split; [ | split].
  - rewrite map_map. erewrite map_ext; [apply map_id | ].
    intro m. apply annotate_monitor.
  - intros x Hx. apply in_map_iff in Hx. destruct Hx as (m & <- & Hm).
    rewrite annotate_monitor. apply annotate_fault.
  - intros x Hx. apply in_map_iff in Hx. destruct Hx as (m & <- & Hm).
    rewrite annotate_monitor. intros Hfault Hn.
    destruct (annotate_listed e u (db w) m Hm Hfault)
      as [[E _] | (c & (I & M & _) & _)]; [exact E | ].
    exfalso. apply Hn. exists c. auto.
Qed.

Lemma status_lookups_app (w : world) (l : list db_call) :
  filter is_status_lookup (calls w ++ l)
  = (status_lookups w ++ filter is_status_lookup l)%list.
Proof. unfold status_lookups. apply filter_app. Qed.

Lemma filter_lookup_calls (ms : list Monitor.t) :
  filter is_status_lookup (map lookup_call ms) = map lookup_call ms.
Proof.
  induction ms as [| m ms IH]; simpl; [reflexivity | now rewrite IH].
Qed.

Lemma latest_at_most_one (checks : list MonitorCheck.t) (m : uuid) :
  (List.length (get_latest_monitor_status checks m) <= 1)%nat.
Proof.
  unfold get_latest_monitor_status, limit. apply firstn_le_length.
Qed.

(** C7, amended. For an authenticated caller whose monitors are fetched,
    the listing issues exactly one [get_latest_monitor_status] call per
    listed monitor, in the order of the listing: n calls for n monitors,
    each returning at most one row. *)
Theorem one_lookup_per_monitor (e : env) (u : uuid) (w : world) :
  authenticated e u ->
  fault e from_monitors_select = None ->
  let w' := snd (getMonitors e "GET" w) in
  status_lookups w'
  = (status_lookups w ++ map lookup_call (listed (db w) u))%list
  /\ List.length (status_lookups w')
     = (List.length (status_lookups w)
        + List.length (listed (db w) u))%nat
  /\ forall m, In m (listed (db w) u) ->
               (List.length
                  (get_latest_monitor_status
                     (visible_checks (db w) u) (Monitor.id m)) <= 1)%nat.
Proof.
  intros Ha Hf w'.
  assert (Hcalls : status_lookups w'
                   = (status_lookups w
                      ++ map lookup_call (listed (db w) u))%list).
  { subst w'. rewrite (getMonitors_run e u w Ha Hf). cbn [snd].
    unfold status_lookups at 1. cbn [calls].
    rewrite status_lookups_app. cbn [filter is_status_lookup].
    now rewrite filter_lookup_calls. }
  split; [exact Hcalls | split].
  - now rewrite Hcalls, length_app, length_map.
  - intros m _. apply latest_at_most_one.
Qed.

Lemma sample_authenticated : authenticated Samples.sample_env "u1".
Proof. split; reflexivity. Defined.

Lemma faulty_authenticated : authenticated Samples.faulty_env "u1".
Proof. split; reflexivity. Defined.

Lemma c2_most_recent : most_recent Samples.sample_db Samples.m1 Samples.c2.
Proof.
  split; [left; reflexivity | split; [reflexivity | ]].
  intros c' [<- | [<- | []]] _; cbn; lia.
Qed.

(** The listing of the sample database. *)
Lemma listed_latest_status_witness :
  (authenticated Samples.sample_env "u1"
   /\ fault Samples.sample_env from_monitors_select = None)
  /\ exists entries w',
    getMonitors Samples.sample_env "GET" Samples.sample_world
    = (mkResponse 200 (list_data entries (Z.of_nat (List.length entries))), w')
    /\ map monitor entries = listed Samples.sample_db "u1".
Proof.
  split; [split; [exact sample_authenticated | reflexivity] | ].
  destruct (listed_latest_status Samples.sample_env "u1" Samples.sample_world
              sample_authenticated eq_refl)
    as (entries & w' & Hrun & Hmap & _).
  exists entries, w'. split; [exact Hrun | exact Hmap].
Defined.

(** C6, counterexample. The monitor [m1] has checks, the most recent one
    with a latency of 80 ms. When its lookup fails the listing attaches a
    null [latest_status] to it; when its lookup succeeds the attached
    [latest_status] reads [undefined] for [response_time_ms]. *)
Lemma latest_status_counterexample :
  has_checks Samples.sample_db Samples.m1
  /\ most_recent Samples.sample_db Samples.m1 Samples.c2
  /\ MonitorCheck.response_time_ms Samples.c2 = Some 80
  /\ fst (getMonitors Samples.faulty_env "GET" Samples.sample_world)
     = mkResponse 200
         (list_data [ mkWithStatus Samples.m2 None;
                      mkWithStatus Samples.m1 None ] 2)
  /\ fst (getMonitors Samples.sample_env "GET" Samples.sample_world)
     = mkResponse 200
         (list_data
            [ mkWithStatus Samples.m2 None;
              mkWithStatus Samples.m1
                (Some [ ("status", JStr "down");
                        ("checked_at", JNum 2000);
                        ("response_time_ms", JUndefined) ]) ] 2).
Proof.
  split; [exists Samples.c2; split; [left | ]; reflexivity | ].
  split; [exact c2_most_recent | ].
  split; [reflexivity | split; reflexivity].
Qed.

(** The listing under a failing lookup for [m1]. *)
Lemma lookup_failure_swallowed_witness :
  (authenticated Samples.faulty_env "u1"
   /\ fault Samples.faulty_env from_monitors_select = None)
  /\ exists entries w',
    getMonitors Samples.faulty_env "GET" Samples.sample_world
    = (mkResponse 200 (list_data entries (Z.of_nat (List.length entries))), w')
    /\ map monitor entries = listed Samples.sample_db "u1"
    /\ forall x, In x entries ->
                 fault Samples.faulty_env (lookup_call (monitor x)) <> None ->
                 latest_status x = None.
Proof.
  split; [split; [exact faulty_authenticated | reflexivity] | ].
  destruct (lookup_failure_swallowed Samples.faulty_env "u1"
              Samples.sample_world faulty_authenticated eq_refl)
    as (entries & w' & Hrun & Hmap & Hfail & _).
  exists entries, w'.
  split; [exact Hrun | split; [exact Hmap | exact Hfail]].
Defined.

(** The calls of the listing of the sample database. *)
Lemma one_lookup_per_monitor_witness :
  (authenticated Samples.sample_env "u1"
   /\ fault Samples.sample_env from_monitors_select = None)
  /\ List.length
       (status_lookups
          (snd (getMonitors Samples.sample_env "GET" Samples.sample_world)))
     = (List.length (status_lookups Samples.sample_world)
        + List.length (listed Samples.sample_db "u1"))%nat.
Proof.
  split; [split; [exact sample_authenticated | reflexivity] | ].
  exact (proj1 (proj2 (one_lookup_per_monitor Samples.sample_env "u1"
                         Samples.sample_world sample_authenticated eq_refl))).
Defined.

(** C7, counterexample. With two monitors the listing makes two status
    lookups, one per monitor, not one batched query. *)
Lemma listing_issues_n_lookups :
  listed Samples.sample_db "u1" = [Samples.m2; Samples.m1]
  /\ status_lookups
       (snd (getMonitors Samples.sample_env "GET" Samples.sample_world))
     = [ rpc_get_latest_monitor_status "m2";
         rpc_get_latest_monitor_status "m1" ].
Proof. split; reflexivity. Qed.

(** *** [createMonitor] *)

Lemma insert_monitor_row (d d' : database) (u fresh : uuid)
      (now : timestamptz) (v : new_monitor) (row : Monitor.t) :
  insert_monitor d u fresh now v = inr (row, d') ->
  row = Monitor.mk fresh (nm_user_id v) (nm_name v) (nm_url v) (nm_type v)
                   (nm_interval_seconds v) now
  /\ monitors d' = append (monitors d) row.
Proof.
  unfold insert_monitor.
  repeat match goal with
         | |- context [ if ?b then _ else _ ] => destruct b
         end; try discriminate.
  intros [= <- <-]. split; reflexivity.
Qed.

(** The path of [createMonitor] that stores a monitor: the name is stored
    as sent, and the interval as sent unless it is missing or [0]. *)
Lemma createMonitor_created (e : env) (u : uuid) (w : world)
      (n l t : string) (i : option Z) (p : Probe.URL)
      (row : Monitor.t) (d' : database) :
  authenticated e u ->
  n <> "" -> l <> "" -> includes ["http"; "https"; "ping"] t = true ->
  URL_parse e l = Some p ->
  let v := mkNewMonitor u n l t (or_default i 300) in
  fault e (from_monitors_insert v) = None ->
  insert_monitor (db w) u (uuid_generate_v4 e) (sql_now e) v = inr (row, d') ->
  createMonitor e
    (mkCreateRequest "POST" (Some (mkCreate (Some n) (Some l) (Some t) i))) w
  = (mkResponse 201 (monitor_body (Some row)),
     mkWorld d' (calls w ++ [from_monitors_insert v]))
  /\ Monitor.name row = n
  /\ Monitor.interval_seconds row = or_default i 300.
Proof.
  intros [He Hu] Hn Hl Ht Hp v Hf Hins.
  assert (Hte : t <> "").
  { intros ->. discriminate Ht. }
  apply String.eqb_neq in Hn, Hl, Hte.
  split.
  - unfold createMonitor. cbn [method json name url type interval_seconds].
    cbn [String.eqb Ascii.eqb Bool.eqb negb]. rewrite He, Hu.
    unfold falsy_string, text. rewrite Hn, Hl, Hte. cbn [orb].
    rewrite Ht. cbn [negb]. rewrite Hp.
    unfold bind, insert_select_single. fold v. rewrite Hf, Hins.
    reflexivity.
  - apply insert_monitor_row in Hins. destruct Hins as [-> _].
    split; reflexivity.
Qed.

(** C1. An authenticated request with [interval_seconds] 30 and otherwise
    valid fields is answered 201 and the monitor is stored with an
    interval of 30 seconds: the handler has no 60 second floor. The same
    request without [interval_seconds] stores an interval of 300. *)
Theorem createMonitor_interval_not_validated :
  let stored i :=
    Monitor.mk "m3" "u1" "site" "https://example.test" "https" i 300 in
  (fst (createMonitor Samples.sample_env
          (Samples.create_with "site" (Some 30)) Samples.sample_world)
   = mkResponse 201 (monitor_body (Some (stored 30)))
   /\ In (stored 30)
         (monitors
            (db (snd (createMonitor Samples.sample_env
                        (Samples.create_with "site" (Some 30))
                        Samples.sample_world)))))
  /\ fst (createMonitor Samples.sample_env
            (Samples.create_with "site" None) Samples.sample_world)
     = mkResponse 201 (monitor_body (Some (stored 300))).
Proof.
  cbv zeta. split; [split | ].
  - reflexivity.
  - vm_compute. right. right. left. reflexivity.
  - reflexivity.
Qed.

(** C8. An authenticated request whose name is three spaces, with
    otherwise valid fields, is answered 201 and a monitor with that name
    is stored: the handler tests the name without trimming it. The empty
    name is answered 400 and nothing is stored. *)
Theorem createMonitor_whitespace_name_accepted :
  let stored :=
    Monitor.mk "m3" "u1" "   " "https://example.test" "https" 300 300 in
  (fst (createMonitor Samples.sample_env
          (Samples.create_with "   " None) Samples.sample_world)
   = mkResponse 201 (monitor_body (Some stored))
   /\ In stored
         (monitors
            (db (snd (createMonitor Samples.sample_env
                        (Samples.create_with "   " None)
                        Samples.sample_world)))))
  /\ createMonitor Samples.sample_env
       (Samples.create_with "" None) Samples.sample_world
     = (mkResponse 400
          (error_body "Missing required fields: name, url, type"),
        Samples.sample_world).
Proof.
  cbv zeta. split; [split | ].
  - reflexivity.
  - vm_compute. right. right. left. reflexivity.
  - reflexivity.
Qed.
End EdgeFacts.

(* ================================================================== *)
(** ** The tables under writes *)

Module StoreFacts.
Import Schema Store Notions Terms.

Lemma existsb_id_false {A} (f : A -> string) (x : string) (l : list A) :
  existsb (fun a => (f a =? x)%string) l = false <-> ~ In x (map f l).
Proof.
  induction l as [| a l IH]; simpl.
  - split; [intros _ [] | reflexivity].
  - rewrite orb_false_iff, IH, String.eqb_neq. tauto.
Qed.

Lemma existsb_id_true {A} (f : A -> string) (x : string) (l : list A) :
  existsb (fun a => (f a =? x)%string) l = true
  <-> exists a, In a l /\ f a = x.
Proof.
  rewrite existsb_exists. split; intros (a & Ha & E); exists a;
    (split; [exact Ha | ]); apply String.eqb_eq; exact E.
Qed.

Lemma NoDup_snoc {A} (l : list A) (x : A) :
  NoDup l -> ~ In x l -> NoDup (l ++ [x]).
Proof.
  induction l as [| a l IH]; simpl; intros Hnd Hx.
  - constructor; [intros [] | constructor].
  - inversion Hnd as [| ? ? Ha Hl]; subst. constructor.
    + rewrite in_app_iff. simpl. intuition congruence.
    + apply IH; tauto.
Qed.

(** A primary key stays one when rows are removed. *)
Lemma pkey_after_removal {Row : Type} (key_of : Row -> string)
      (keep : Row -> bool) (rows : list Row) :
  NoDup (map key_of rows) -> NoDup (map key_of (filter keep rows)).
Proof.
  induction rows as [| row rows IH]; cbn [filter map]; intro Hkeys.
  - exact Hkeys.
  - apply NoDup_cons_iff in Hkeys. destruct Hkeys as [Hnew Hkeys].
    destruct (keep row); cbn [map]; [ | exact (IH Hkeys)].
    apply NoDup_cons; [ | exact (IH Hkeys)].
    intro Hin. apply Hnew. apply in_map_iff in Hin.
    destruct Hin as (other & Hkey & Hother).
    apply filter_In in Hother. apply in_map_iff.
    exists other. split; [exact Hkey | exact (proj1 Hother)].
Qed.

(** What a successful insert of a check checked and stored. *)
Lemma insert_check_inv (d d' : database) (u fresh : uuid) (now : timestamptz)
      (v : new_check) (row : MonitorCheck.t) :
  insert_check d u fresh now v = inr (row, d') ->
  row = MonitorCheck.mk fresh (nc_monitor_id v) (nc_status v)
                        (nc_response_time_ms v) (nc_error_message v) now
  /\ d' = mkDatabase (users d) (monitors d) (monitor_checks d ++ [row])
  /\ fits_int4 (nc_response_time_ms v) = true
  /\ ~ In fresh (map MonitorCheck.id (monitor_checks d))
  /\ exists m, In m (monitors d) /\ Monitor.id m = nc_monitor_id v
               /\ Monitor.user_id m = u.
Proof.
  unfold insert_check.
  destruct (fits_int4 (nc_response_time_ms v)) eqn:Hfit; [ | discriminate].
  cbn [negb].
  destruct (own_check d u _) eqn:Hown; [ | discriminate]. cbn [negb].
  destruct (existsb _ (monitor_checks d)) eqn:Hdup; [discriminate | ].
  destruct (existsb _ (monitors d)) eqn:Hfk; [ | discriminate]. cbn [negb].
  intros [= <- <-]. repeat split.
  - apply (existsb_id_false MonitorCheck.id). exact Hdup.
  - unfold own_check in Hown. apply existsb_exists in Hown.
    destruct Hown as (m & Hm & Hc). apply andb_true_iff in Hc.
    destruct Hc as [E1 E2]. apply String.eqb_eq in E1, E2.
    exists m. auto.
Qed.

(** What a successful insert of a monitor checked and stored. *)
Lemma insert_monitor_inv (d d' : database) (u fresh : uuid) (now : timestamptz)
      (v : new_monitor) (row : Monitor.t) :
  insert_monitor d u fresh now v = inr (row, d') ->
  row = Monitor.mk fresh (nm_user_id v) (nm_name v) (nm_url v) (nm_type v)
                   (nm_interval_seconds v) now
  /\ d' = mkDatabase (users d) (monitors d ++ [row]) (monitor_checks d)
  /\ in_int4 (nm_interval_seconds v) = true
  /\ nm_user_id v = u
  /\ type_check (nm_type v) = true
  /\ ~ In fresh (map Monitor.id (monitors d))
  /\ In (nm_user_id v) (users d).
Proof.
  unfold insert_monitor.
  destruct (in_int4 _) eqn:Hint; [ | discriminate]. cbn [negb].
  destruct (own_monitor u _) eqn:Hown; [ | discriminate]. cbn [negb].
  destruct (type_check _) eqn:Hty; [ | discriminate]. cbn [negb].
  destruct (existsb _ (monitors d)) eqn:Hdup; [discriminate | ].
  match goal with
  | |- context [ existsb ?f (users d) ] =>
      destruct (existsb f (users d)) eqn:Hfk; [ | discriminate]
  end. cbn [negb].
  intros [= <- <-]. repeat split.
  - unfold own_monitor in Hown. cbn in Hown. apply String.eqb_eq in Hown.
    auto.
  - apply (existsb_id_false Monitor.id). exact Hdup.
  - apply existsb_exists in Hfk. destruct Hfk as (x & Hx & E).
    apply String.eqb_eq in E. now subst.
Qed.

Lemma in_delete_monitors (d : database) (u id owner : uuid) (m : Monitor.t) :
  In m (monitors (delete_monitor d u id owner))
  <-> In m (monitors d) /\ doomed u id owner m = false.
Proof.
  unfold delete_monitor. cbn [monitors]. rewrite filter_In, negb_true_iff.
  reflexivity.
Qed.

Lemma in_delete_checks (d : database) (u id owner : uuid) (c : MonitorCheck.t) :
  In c (monitor_checks (delete_monitor d u id owner))
  <-> In c (monitor_checks d)
      /\ cascades (filter (doomed u id owner) (monitors d)) c = false.
Proof.
  unfold delete_monitor. cbn [monitor_checks].
  rewrite filter_In, negb_true_iff. reflexivity.
Qed.

(* The three writes keep the constraints of the schema. *)
Lemma writes_keep_constraints (d : database) :
  well_formed d ->
  (forall u fresh now v row d',
      insert_monitor d u fresh now v = inr (row, d') -> well_formed d')
  /\ (forall u fresh now v row d',
         insert_check d u fresh now v = inr (row, d') -> well_formed d')
  /\ (forall u id owner, well_formed (delete_monitor d u id owner)).
Proof.
  intros [Hpk Hcpk Hufk Hcfk Hty Hint Hlat]. split; [ | split].
  - intros u fresh now v row d' Hins.
    apply insert_monitor_inv in Hins.
    destruct Hins as (-> & -> & Hi & Hu & Ht & Hfresh & Huser).
    constructor; cbn [users monitors monitor_checks].
    + rewrite map_app. apply NoDup_snoc; assumption.
    + exact Hcpk.
    + intros m Hm. apply in_app_iff in Hm.
      destruct Hm as [Hm | [<- | []]]; auto.
    + intros c Hc. destruct (Hcfk c Hc) as (m & Hm & E).
      exists m. split; [apply in_app_iff; now left | exact E].
    + intros m Hm. apply in_app_iff in Hm.
      destruct Hm as [Hm | [<- | []]]; auto.
    + intros m Hm. apply in_app_iff in Hm.
      destruct Hm as [Hm | [<- | []]]; auto.
    + exact Hlat.
  - intros u fresh now v row d' Hins.
    apply insert_check_inv in Hins.
    destruct Hins as (-> & -> & Hfit & Hfresh & (m & Hm & E & _)).
    constructor; cbn [users monitors monitor_checks]; auto.
    + rewrite map_app. apply NoDup_snoc; assumption.
    + intros c Hc. apply in_app_iff in Hc.
      destruct Hc as [Hc | [<- | []]]; auto.
      exists m. auto.
    + intros c Hc. apply in_app_iff in Hc.
      destruct Hc as [Hc | [<- | []]]; auto.
  - intros u id owner. constructor.
    + unfold delete_monitor. cbn [monitors]. now apply pkey_after_removal.
    + unfold delete_monitor. cbn [monitor_checks]. now apply pkey_after_removal.
    + intros m Hm. apply in_delete_monitors in Hm. cbn [users delete_monitor].
      apply Hufk. tauto.
    + intros c Hc. apply in_delete_checks in Hc. destruct Hc as [Hc Hcas].
      destruct (Hcfk c Hc) as (m & Hm & E).
      exists m. split; [ | exact E]. apply in_delete_monitors.
      split; [exact Hm | ].
      destruct (doomed u id owner m) eqn:Hd; [ | reflexivity].
      exfalso. unfold cascades in Hcas.
      assert (Ht : existsb
                     (fun m0 =>
                        (Monitor.id m0 =? MonitorCheck.monitor_id c)%string)
                     (filter (doomed u id owner) (monitors d)) = true).
      { apply existsb_exists. exists m.
        split; [apply filter_In; auto | now apply String.eqb_eq]. }
      congruence.
    + intros m Hm. apply in_delete_monitors in Hm. apply Hty. tauto.
    + intros m Hm. apply in_delete_monitors in Hm. apply Hint. tauto.
    + intros c Hc. apply in_delete_checks in Hc. apply Hlat. tauto.
Qed.

(** Every successful insert into [monitors], every successful insert
    into [monitor_checks] and every delete from [monitors] keeps the
    constraints the schema declares. *)
Theorem writes_preserve_well_formed (d : database) :
  well_formed d ->
  (forall u fresh now v row d',
      insert_monitor d u fresh now v = inr (row, d') -> well_formed d')
  /\ (forall u fresh now v row d',
         insert_check d u fresh now v = inr (row, d') -> well_formed d')
  /\ (forall u id owner, well_formed (delete_monitor d u id owner)).
Proof. exact (writes_keep_constraints d). Qed.

Lemma same_id_same_monitor (d : database) (m m' : Monitor.t) :
  well_formed d -> In m (monitors d) -> In m' (monitors d) ->
  Monitor.id m' = Monitor.id m -> m' = m.
Proof.
  intros Hwf Hm Hm' E.
  apply (SchemaFacts.NoDup_map_injective Monitor.id (monitors d));
    auto using monitors_pkey.
Qed.

Lemma doomed_owned (d : database) (m m' : Monitor.t) :
  well_formed d -> In m (monitors d) -> In m' (monitors d) ->
  doomed (Monitor.user_id m) (Monitor.id m) (Monitor.user_id m) m' = true
  <-> Monitor.id m' = Monitor.id m.
Proof.
  intros Hwf Hm Hm'. unfold doomed, own_monitor.
  rewrite !andb_true_iff, !String.eqb_eq. split; [tauto | ].
  intro E. rewrite (same_id_same_monitor d m m' Hwf Hm Hm' E). auto.
Qed.

(* What the delete of a monitor by its owner removes. *)
Lemma delete_removes_exactly (d : database) (m : Monitor.t) :
  well_formed d -> In m (monitors d) ->
  let d' := delete_monitor d (Monitor.user_id m) (Monitor.id m)
                           (Monitor.user_id m) in
  users d' = users d
  /\ (forall m', In m' (monitors d')
                 <-> In m' (monitors d) /\ Monitor.id m' <> Monitor.id m)
  /\ (forall c, In c (monitor_checks d')
                <-> In c (monitor_checks d)
                    /\ MonitorCheck.monitor_id c <> Monitor.id m)
  /\ get_latest_monitor_status (monitor_checks d') (Monitor.id m) = [].
Proof.
  intros Hwf Hm d'.
  assert (Hmon : forall m', In m' (monitors d')
                   <-> In m' (monitors d) /\ Monitor.id m' <> Monitor.id m).
  { intro m'. unfold d'. rewrite in_delete_monitors. split.
    - intros [Hin Hd]. split; [exact Hin | ]. intro E.
      apply (doomed_owned d m m' Hwf Hm Hin) in E. congruence.
    - intros [Hin Hne]. split; [exact Hin | ].
      destruct (doomed _ _ _ m') eqn:Hd; [ | reflexivity].
      apply (doomed_owned d m m' Hwf Hm Hin) in Hd. contradiction. }
  assert (Hchk : forall c, In c (monitor_checks d')
                   <-> In c (monitor_checks d)
                       /\ MonitorCheck.monitor_id c <> Monitor.id m).
  { intro c. unfold d'. rewrite in_delete_checks. unfold cascades.
    split; intros [Hin H]; (split; [exact Hin | ]).
    - intro E. rewrite <- not_true_iff_false in H. apply H.
      apply existsb_exists. exists m. split.
      + apply filter_In. split; [exact Hm | ].
        now apply (doomed_owned d m m Hwf Hm Hm).
      + apply String.eqb_eq. auto.
    - apply not_true_iff_false. intro Ht. apply existsb_exists in Ht.
      destruct Ht as (m' & Hm' & E). apply filter_In in Hm'.
      destruct Hm' as [Hin' Hd]. apply String.eqb_eq in E.
      apply (doomed_owned d m m' Hwf Hm Hin') in Hd. congruence. }
  split; [reflexivity | split; [exact Hmon | split; [exact Hchk | ]]].
  destruct (SchemaFacts.latest_cases (monitor_checks d') (Monitor.id m))
    as [[E _] | (c & Hc & Hid & _)]; [exact E | ].
  apply Hchk in Hc. tauto.
Qed.

(** Deleting an owned monitor removes that monitor and the checks that
    refer to it, and nothing else. *)
Theorem delete_cascades (d : database) (m : Monitor.t) :
  well_formed d -> In m (monitors d) ->
  let d' := delete_monitor d (Monitor.user_id m) (Monitor.id m)
                           (Monitor.user_id m) in
  users d' = users d
  /\ (forall m', In m' (monitors d')
                 <-> In m' (monitors d) /\ Monitor.id m' <> Monitor.id m)
  /\ (forall c, In c (monitor_checks d')
                <-> In c (monitor_checks d)
                    /\ MonitorCheck.monitor_id c <> Monitor.id m)
  /\ get_latest_monitor_status (monitor_checks d') (Monitor.id m) = [].
Proof. exact (delete_removes_exactly d m). Qed.

Section Ordering.
Context {A : Type} (key : A -> Z).

Lemma insert_desc_sorted (x : A) (l : list A) :
  StronglySorted (newer_first key) l ->
  StronglySorted (newer_first key) (insert_desc key x l).
Proof.
  induction 1 as [| y l Hl IH Hy]; simpl.
  - constructor; constructor.
  - destruct (key y <=? key x) eqn:Hc.
    + apply Z.leb_le in Hc. constructor.
      * constructor; assumption.
      * constructor; [exact Hc | ].
        eapply Forall_impl; [ | exact Hy]. unfold newer_first. intros; lia.
    + apply Z.leb_gt in Hc. constructor; [exact IH | ].
      apply (Permutation_Forall
               (Permutation_sym (SchemaFacts.insert_desc_perm key x l))).
      constructor; [unfold newer_first; lia | exact Hy].
Qed.

Lemma order_by_desc_sorted (l : list A) :
  StronglySorted (newer_first key) (order_by_desc key l).
Proof.
  induction l as [| x l IH]; simpl; [constructor | ].
  now apply insert_desc_sorted.
Qed.

(** A row added last whose key exceeds every other key comes first. *)
Lemma order_by_desc_newest (l : list A) (x : A) :
  (forall y, In y l -> key y < key x) ->
  order_by_desc key (l ++ [x]) = x :: order_by_desc key l.
Proof.
  induction l as [| a l IH]; intro H; simpl; [reflexivity | ].
  rewrite IH by (intros y Hy; apply H; now right). simpl.
  destruct (key x <=? key a) eqn:Hc; [ | reflexivity].
  apply Z.leb_le in Hc. specialize (H a (or_introl eq_refl)). lia.
Qed.
End Ordering.

(** Row level security hides another user's monitor and its checks: a
    lookup by its id finds no monitor and no latest status. *)
Theorem foreign_monitor_hidden (d : database) (u : uuid) (m : Monitor.t) :
  well_formed d -> In m (monitors d) -> Monitor.user_id m <> u ->
  select_by_id d u (Monitor.id m) = []
  /\ get_latest_monitor_status (visible_checks d u) (Monitor.id m) = [].
Proof.
  intros Hwf Hm Hne.
  assert (Hno : forall m', In m' (monitors d) -> Monitor.id m' = Monitor.id m ->
                           Monitor.user_id m' <> u).
  { intros m' Hm' E. now rewrite (same_id_same_monitor d m m' Hwf Hm Hm' E). }
  split.
  - unfold select_by_id, visible_monitors.
    destruct (filter _ (filter _ _)) as [| m' l] eqn:Hf; [reflexivity | ].
    exfalso.
    assert (Hin : In m' (m' :: l)) by now left.
    rewrite <- Hf in Hin. apply filter_In in Hin. destruct Hin as [Hin E].
    apply filter_In in Hin. destruct Hin as [Hin Hown].
    apply String.eqb_eq in E. unfold own_monitor in Hown.
    apply String.eqb_eq in Hown. apply (Hno m' Hin E). auto.
  - destruct (SchemaFacts.latest_cases (visible_checks d u) (Monitor.id m))
      as [[E _] | (c & Hc & Hid & _)]; [exact E | ].
    exfalso. unfold visible_checks in Hc. apply filter_In in Hc.
    destruct Hc as [_ Hown]. unfold own_check in Hown.
    apply existsb_exists in Hown. destruct Hown as (m' & Hm' & Hb).
    apply andb_true_iff in Hb. destruct Hb as [E1 E2].
    apply String.eqb_eq in E1, E2. apply (Hno m' Hm'); congruence.
Qed.

(** A check cannot be stored for a monitor the caller does not own or that
    does not exist (any more): the insert is refused and the database is
    not changed. *)
Theorem insert_check_needs_owned_monitor
        (d : database) (u fresh : uuid) (now : timestamptz) (v : new_check) :
  (forall m, In m (monitors d) -> Monitor.id m = nc_monitor_id v ->
             Monitor.user_id m <> u) ->
  exists err, insert_check d u fresh now v = inl err.
Proof.
  intro Hnone.
  destruct (insert_check d u fresh now v) as [err | [row d']] eqn:Hins;
    [exists err; reflexivity | ].
  apply insert_check_inv in Hins.
  destruct Hins as (_ & _ & _ & _ & (m & Hm & Hid & Hu)).
  exfalso. exact (Hnone m Hm Hid Hu).
Qed.
End StoreFacts.

(* ================================================================== *)
(** ** [runCheck] and [deleteMonitor] *)

Module LifecycleFacts.
Import JS Schema Store Lifecycle Terms.
Import Edge(status, payload, mkResponse).

Lemma select_by_id_single (d : database) (u id : uuid) (m : Monitor.t)
      (l : list Monitor.t) :
  select_by_id d u id = m :: l ->
  In m (monitors d) /\ Monitor.id m = id /\ Monitor.user_id m = u.
Proof.
  intro H. assert (Hin : In m (select_by_id d u id)) by (rewrite H; now left).
  unfold select_by_id, visible_monitors in Hin.
  apply filter_In in Hin. destruct Hin as [Hin E].
  apply filter_In in Hin. destruct Hin as [Hin Hown].
  apply String.eqb_eq in E. unfold own_monitor in Hown.
  apply String.eqb_eq in Hown. auto.
Qed.

Lemma select_by_id_none (d : database) (u id : uuid) :
  (forall m, In m (monitors d) -> Monitor.id m = id ->
             Monitor.user_id m <> u) ->
  select_by_id d u id = [].
Proof.
  intro H. destruct (select_by_id d u id) as [| m l] eqn:E; [reflexivity | ].
  destruct (select_by_id_single d u id m l E) as (Hin & Hid & Hu).
  exfalso. exact (H m Hin Hid Hu).
Qed.

Lemma falsy_text (s : option string) :
  falsy_string s = false -> s = Some (Edge.text s) /\ Edge.text s <> "".
Proof.
  destruct s as [t | ]; [ | discriminate]. cbn. intro H.
  split; [reflexivity | now apply String.eqb_neq].
Qed.

Ltac refuse :=
  match goal with
  | H : ?out = _ |- _ => subst out
  end;
  cbn [fst snd status payload db record_call calls error data ret bind];
  split; [intros _; reflexivity
         | let Hs := fresh "Hs" in intro Hs; discriminate Hs].

Section Postgres.
Variable uuid_in : string -> option uuid.

(* The paths of [runCheck], by what they answer and what they store. *)
Lemma runCheck_cases (e : env) (req : request) (w : world) :
  let out := runCheck uuid_in e req w in
  (status (fst out) <> 200 -> db (snd out) = db w)
  /\ (status (fst out) = 200 ->
      exists u m r text,
        signed_in e u
        /\ requested req = Some text
        /\ uuid_in text = Some (Monitor.id m)
        /\ In m (monitors (db w)) /\ Monitor.user_id m = u
        /\ fst (Probe.run_performCheck (runtime e) (Monitor.url m)
                  (Monitor.type m)) = Probe.Normal r
        /\ db (snd out)
           = mkDatabase (users (db w)) (monitors (db w))
                        (monitor_checks (db w) ++ [recorded e m r])
        /\ payload (fst out) = check_data (as_CheckResult (recorded e m r))).
Proof.
  intro out. assert (Hout : out = runCheck uuid_in e req w) by reflexivity.
  clearbody out. unfold runCheck in Hout.
  destruct (method req =? "OPTIONS")%string; [refuse | ].
  destruct (method req =? "POST")%string; cbn [negb] in Hout; [ | refuse].
  destruct (getUser_error e) eqn:He; [refuse | ].
  destruct (getUser_user e) as [u | ] eqn:Hu; [ | refuse].
  unfold requested.
  destruct (json req) as [body | ]; [ | refuse].
  destruct (falsy_string (monitor_id body)) eqn:Hid; [refuse | ].
  apply falsy_text in Hid. destruct Hid as [Hid _].
  set (text := Edge.text (monitor_id body)) in *.
  unfold bind at 1 in Hout. unfold select_single in Hout.
  destruct (fault e (from_monitors_select_single text)); [refuse | ].
  destruct (uuid_in text) as [id | ] eqn:Hparse; [ | refuse].
  destruct (select_by_id (db w) u id) as [| m [| m' l]] eqn:Hsel;
    cbn [error data] in Hout; try refuse.
  destruct (select_by_id_single _ _ _ _ _ Hsel) as (Hin & Hmid & Hmu).
  destruct (fst (Probe.run_performCheck _ _ _)) as [r | t] eqn:Hrun;
    [ | refuse].
  unfold bind, insert_check_single in Hout.
  destruct (fault e (from_monitor_checks_insert _)); [refuse | ].
  destruct (insert_check _ _ _ _ _) as [err | [row d']] eqn:Hins;
    [refuse | ].
  apply StoreFacts.insert_check_inv in Hins.
  destruct Hins as (-> & -> & _). subst out.
  cbn [fst snd status payload db record_call calls error data ret
       nc_monitor_id nc_status nc_response_time_ms nc_error_message].
  split; [intro Hs; exfalso; apply Hs; reflexivity | intros _].
  exists u, m, r, text. unfold recorded, as_CheckResult.
  cbn [MonitorCheck.monitor_id MonitorCheck.status
       MonitorCheck.response_time_ms MonitorCheck.error_message
       MonitorCheck.checked_at].
  rewrite Hmid.
  split; [split; assumption | ]. repeat split; assumption.
Qed.

(** A check is recorded exactly when [runCheck] answers 200: then the
    caller is signed in, the text the request gives for the monitor id
    denotes the id of a monitor the caller owns, the row appended carries
    the result of the probe of that monitor's url and type and the
    insert's timestamp, and the answer repeats that row; with any other
    answer the database is as before. *)
Theorem runCheck_all_or_nothing (e : env) (req : request) (w : world) :
  let out := runCheck uuid_in e req w in
  (status (fst out) <> 200 -> db (snd out) = db w)
  /\ (status (fst out) = 200 ->
      exists u m r text,
        signed_in e u
        /\ requested req = Some text
        /\ uuid_in text = Some (Monitor.id m)
        /\ In m (monitors (db w)) /\ Monitor.user_id m = u
        /\ fst (Probe.run_performCheck (runtime e) (Monitor.url m)
                  (Monitor.type m)) = Probe.Normal r
        /\ db (snd out)
           = mkDatabase (users (db w)) (monitors (db w))
                        (monitor_checks (db w) ++ [recorded e m r])
        /\ payload (fst out) = check_data (as_CheckResult (recorded e m r))).
Proof. exact (runCheck_cases e req w). Qed.

(* The paths of [deleteMonitor], by what they answer and what they store. *)
Lemma deleteMonitor_cases (e : env) (req : request) (w : world) :
  let out := deleteMonitor uuid_in e req w in
  (status (fst out) <> 200 -> db (snd out) = db w)
  /\ (status (fst out) = 200 ->
      exists u m text,
        signed_in e u
        /\ requested req = Some text
        /\ uuid_in text = Some (Monitor.id m)
        /\ In m (monitors (db w)) /\ Monitor.user_id m = u
        /\ db (snd out) = delete_monitor (db w) u (Monitor.id m) u
        /\ payload (fst out) = deleted "Monitor deleted successfully" text).
Proof.
  intro out. assert (Hout : out = deleteMonitor uuid_in e req w)
    by reflexivity.
  clearbody out. unfold deleteMonitor in Hout.
  destruct (method req =? "OPTIONS")%string; [refuse | ].
  destruct (method req =? "DELETE")%string; cbn [negb] in Hout; [ | refuse].
  destruct (getUser_error e) eqn:He; [refuse | ].
  destruct (getUser_user e) as [u | ] eqn:Hu; [ | refuse].
  unfold requested.
  destruct (json req) as [body | ]; [ | refuse].
  destruct (falsy_string (monitor_id body)) eqn:Hid; [refuse | ].
  apply falsy_text in Hid. destruct Hid as [Hid _].
  set (text := Edge.text (monitor_id body)) in *.
  unfold bind at 1 in Hout. unfold select_single in Hout.
  destruct (fault e (from_monitors_select_single text)); [refuse | ].
  destruct (uuid_in text) as [id | ] eqn:Hparse; [ | refuse].
  destruct (select_by_id (db w) u id) as [| m [| m' l]] eqn:Hsel;
    cbn [error data] in Hout; try refuse.
  destruct (select_by_id_single _ _ _ _ _ Hsel) as (Hin & Hmid & Hmu).
  unfold bind, delete_eq in Hout.
  destruct (fault e (from_monitors_delete text u)); [refuse | ].
  rewrite Hparse in Hout. subst out.
  cbn [fst snd status payload db record_call calls error data ret].
  split; [intro Hs; exfalso; apply Hs; reflexivity | intros _].
  exists u, m, text. rewrite Hmid.
  split; [split; assumption | ]. repeat split; assumption.
Qed.

(** A monitor is deleted exactly when [deleteMonitor] answers 200: then
    the caller is signed in, the text the request gives for the monitor id
    denotes the id of a monitor the caller owns, the database is the one
    the delete statement leaves, and the answer repeats the request's
    text as it was sent; with any other answer the database is as
    before. *)
Theorem deleteMonitor_all_or_nothing (e : env) (req : request) (w : world) :
  let out := deleteMonitor uuid_in e req w in
  (status (fst out) <> 200 -> db (snd out) = db w)
  /\ (status (fst out) = 200 ->
      exists u m text,
        signed_in e u
        /\ requested req = Some text
        /\ uuid_in text = Some (Monitor.id m)
        /\ In m (monitors (db w)) /\ Monitor.user_id m = u
        /\ db (snd out) = delete_monitor (db w) u (Monitor.id m) u
        /\ payload (fst out) = deleted "Monitor deleted successfully" text).
Proof. exact (deleteMonitor_cases e req w). Qed.

(* What a deletion answered 200 leaves of the monitors and the checks. *)
Lemma deleted_monitor_gone (e : env) (req : request) (w : world) :
  well_formed (db w) ->
  let out := deleteMonitor uuid_in e req w in
  status (fst out) = 200 ->
  exists text id,
    requested req = Some text /\ uuid_in text = Some id
    /\ (forall m, In m (monitors (db (snd out)))
                  <-> In m (monitors (db w)) /\ Monitor.id m <> id)
    /\ (forall c, In c (monitor_checks (db (snd out)))
                  <-> In c (monitor_checks (db w))
                      /\ MonitorCheck.monitor_id c <> id)
    /\ get_latest_monitor_status (monitor_checks (db (snd out))) id = []
    /\ well_formed (db (snd out)).
Proof.
  intros Hwf out Hs.
  destruct (proj2 (deleteMonitor_cases e req w) Hs)
    as (u & m & text & _ & Hreq & Hparse & Hin & Hu & Hdb & _).
  fold out in Hdb. exists text, (Monitor.id m). rewrite Hdb, <- Hu.
  destruct (StoreFacts.delete_removes_exactly (db w) m Hwf Hin)
    as (_ & Hmon & Hchk & Hlatest).
  split; [exact Hreq | ]. split; [exact Hparse | ].
  split; [exact Hmon | ]. split; [exact Hchk | ].
  split; [exact Hlatest | ].
  apply (StoreFacts.writes_keep_constraints (db w) Hwf).
Qed.

(** After a deletion answered 200 in a database that satisfies the schema's
    constraints, the monitor whose id the request's text denotes is gone
    with all its checks, every other monitor and check is kept, and the
    latest-status function returns no row for the deleted id. *)
Theorem deleteMonitor_removes_history (e : env) (req : request) (w : world) :
  well_formed (db w) ->
  let out := deleteMonitor uuid_in e req w in
  status (fst out) = 200 ->
  exists text id,
    requested req = Some text /\ uuid_in text = Some id
    /\ (forall m, In m (monitors (db (snd out)))
                  <-> In m (monitors (db w)) /\ Monitor.id m <> id)
    /\ (forall c, In c (monitor_checks (db (snd out)))
                  <-> In c (monitor_checks (db w))
                      /\ MonitorCheck.monitor_id c <> id)
    /\ get_latest_monitor_status (monitor_checks (db (snd out))) id = []
    /\ well_formed (db (snd out)).
Proof. exact (deleted_monitor_gone e req w). Qed.

(* Both handlers on a text that denotes no monitor of the caller's. *)
Lemma unknown_monitor (e : env) (u : uuid) (text : string) (w : world) :
  signed_in e u -> text <> "" ->
  (forall id m, uuid_in text = Some id -> In m (monitors (db w)) ->
                Monitor.id m = id -> Monitor.user_id m <> u) ->
  let named := Some (mkIdRequest (Some text)) in
  fst (runCheck uuid_in e (mkRequest "POST" named) w)
  = mkResponse 404 (check_error "Monitor not found or access denied")
  /\ db (snd (runCheck uuid_in e (mkRequest "POST" named) w)) = db w
  /\ fst (deleteMonitor uuid_in e (mkRequest "DELETE" named) w)
     = mkResponse 404 (delete_error "Monitor not found or access denied")
  /\ db (snd (deleteMonitor uuid_in e (mkRequest "DELETE" named) w)) = db w.
Proof.
  intros [He Hu] Hid Hnone named.
  apply String.eqb_neq in Hid.
  unfold runCheck, deleteMonitor, named.
  cbn [method json monitor_id String.eqb Ascii.eqb Bool.eqb negb].
  rewrite He, Hu. unfold falsy_string, Edge.text. rewrite Hid.
  unfold bind, select_single.
  destruct (fault e (from_monitors_select_single text));
    [repeat split; reflexivity | ].
  destruct (uuid_in text) as [id | ] eqn:Hparse;
    [ | repeat split; reflexivity].
  rewrite (select_by_id_none (db w) u id (fun m => Hnone id m eq_refl)).
  repeat split; reflexivity.
Qed.

(** A signed-in caller who names a monitor by a text that is no uuid,
    or that denotes the id of no monitor, or of a monitor another user
    owns, gets the same answer from [runCheck] and from [deleteMonitor]:
    404 with the same message, and the database is as before. *)
Theorem not_owned_is_not_found (e : env) (u : uuid) (text : string)
        (w : world) :
  signed_in e u -> text <> "" ->
  (forall id m, uuid_in text = Some id -> In m (monitors (db w)) ->
                Monitor.id m = id -> Monitor.user_id m <> u) ->
  let named := Some (mkIdRequest (Some text)) in
  fst (runCheck uuid_in e (mkRequest "POST" named) w)
  = mkResponse 404 (check_error "Monitor not found or access denied")
  /\ db (snd (runCheck uuid_in e (mkRequest "POST" named) w)) = db w
  /\ fst (deleteMonitor uuid_in e (mkRequest "DELETE" named) w)
     = mkResponse 404 (delete_error "Monitor not found or access denied")
  /\ db (snd (deleteMonitor uuid_in e (mkRequest "DELETE" named) w)) = db w.
Proof. exact (unknown_monitor e u text w). Qed.

(** When the probe has run and the insert of its result fails, [runCheck]
    answers 500 "Failed to record check result" and nothing is stored. *)
Theorem runCheck_reports_storage_failure
        (e : env) (u : uuid) (text : string) (m : Monitor.t)
        (r : Probe.check_result) (w : world) :
  signed_in e u -> text <> "" ->
  uuid_in text = Some (Monitor.id m) ->
  fault e (from_monitors_select_single text) = None ->
  select_by_id (db w) u (Monitor.id m) = [m] ->
  fst (Probe.run_performCheck (runtime e) (Monitor.url m) (Monitor.type m))
  = Probe.Normal r ->
  let v := mkNewCheck (Monitor.id m) (Probe.status r)
                      (Probe.response_time_ms r) (Probe.error_message r) in
  (fault e (from_monitor_checks_insert v) <> None
   \/ exists err,
       insert_check (db w) u (uuid_generate_v4 e) (sql_now e) v = inl err) ->
  let out := runCheck uuid_in e
               (mkRequest "POST" (Some (mkIdRequest (Some text)))) w in
  fst out = mkResponse 500 (check_error "Failed to record check result")
  /\ db (snd out) = db w.
Proof.
  intros [He Hu] Hid Hparse Hf Hsel Hrun v Hfail out.
  assert (Hout : exists w',
             out = (mkResponse 500
                      (check_error "Failed to record check result"), w')
             /\ db w' = db w).
  { subst out. apply String.eqb_neq in Hid. unfold runCheck.
    cbn [method json monitor_id String.eqb Ascii.eqb Bool.eqb negb].
    rewrite He, Hu. unfold falsy_string, Edge.text. rewrite Hid.
    unfold bind at 1. unfold select_single. rewrite Hf, Hparse, Hsel.
    cbn [error data]. rewrite Hrun.
    unfold bind, insert_check_single. fold v. cbn [db record_call].
    destruct Hfail as [Hfault | [err Hins]].
    - destruct (fault e (from_monitor_checks_insert v)); [ | congruence].
      eexists. split; reflexivity.
    - rewrite Hins.
      destruct (fault e (from_monitor_checks_insert v));
        eexists; split; reflexivity. }
  destruct Hout as (w' & -> & Hdb). split; [reflexivity | exact Hdb].
Qed.

(** After a deletion answered 200, a check of the same monitor, requested
    by any signed-in user, is answered 404 and records nothing. *)
Theorem check_after_delete_not_found
        (e e' : env) (u' : uuid) (req : request) (w : world) :
  well_formed (db w) ->
  status (fst (deleteMonitor uuid_in e req w)) = 200 ->
  signed_in e' u' ->
  let w1 := snd (deleteMonitor uuid_in e req w) in
  let again := mkRequest "POST" (Some (mkIdRequest (requested req))) in
  fst (runCheck uuid_in e' again w1)
  = mkResponse 404 (check_error "Monitor not found or access denied")
  /\ db (snd (runCheck uuid_in e' again w1)) = db w1.
Proof.
  intros Hwf Hs Hin' w1 again.
  destruct (deleted_monitor_gone e req w Hwf Hs)
    as (text & id & Hreq & Hparse & Hmon & _).
  assert (Hid : text <> "").
  { intros ->. revert Hs Hreq. unfold deleteMonitor, requested.
    destruct (method req =? "OPTIONS")%string; [discriminate | ].
    destruct (method req =? "DELETE")%string; [ | discriminate].
    cbn [negb].
    destruct (getUser_error e); [discriminate | ].
    destruct (getUser_user e); [ | discriminate].
    destruct (json req) as [body | ]; [ | discriminate].
    intros Hs E. rewrite E in Hs. discriminate Hs. }
  unfold again. rewrite Hreq.
  destruct (unknown_monitor e' u' text w1 Hin' Hid) as (H1 & H2 & _).
  - intros id' m Hparse' Hm E. rewrite Hparse in Hparse'.
    injection Hparse' as <-. apply Hmon in Hm. tauto.
  - split; assumption.
Qed.
End Postgres.
End LifecycleFacts.

(* ================================================================== *)
(** ** [createMonitor] and [getMonitors], continued *)

Module ListingFacts.
Import JS Schema Store Edge Notions Terms.

Ltac reject :=
  match goal with
  | H : ?out = _ |- _ => subst out
  end;
  cbn [fst snd status payload db record_call calls error data ret bind];
  split; [intros _; reflexivity
         | let Hs := fresh "Hs" in intro Hs; discriminate Hs].

(* The paths of [createMonitor], by what they answer and what they
   store. *)
Lemma createMonitor_cases (e : env) (req : create_request)
        (w : world) :
  let out := createMonitor e req w in
  (status (fst out) <> 201 -> db (snd out) = db w)
  /\ (status (fst out) = 201 ->
      exists u body row,
        authenticated e u /\ json req = Some body
        /\ payload (fst out) = monitor_body (Some row)
        /\ db (snd out)
           = mkDatabase (users (db w)) (monitors (db w) ++ [row])
                        (monitor_checks (db w))
        /\ row = Monitor.mk (uuid_generate_v4 e) u (text (name body))
                            (text (url body)) (text (type body))
                            (or_default (interval_seconds body) 300)
                            (sql_now e)
        /\ name body = Some (Monitor.name row) /\ Monitor.name row <> ""
        /\ type_check (Monitor.type row) = true
        /\ URL_parse e (Monitor.url row) <> None
        /\ ~ In (Monitor.id row) (map Monitor.id (monitors (db w)))).
Proof.
  intro out. assert (Hout : out = createMonitor e req w) by reflexivity.
  clearbody out. unfold createMonitor in Hout.
  destruct (method req =? "OPTIONS")%string; [reject | ].
  destruct (method req =? "POST")%string; cbn [negb] in Hout; [ | reject].
  destruct (getUser_error e) eqn:He; [reject | ].
  destruct (getUser_user e) as [u | ] eqn:Hu; [ | reject].
  destruct (json req) as [body | ]; [ | reject].
  destruct (falsy_string (name body)) eqn:Hn; [reject | ].
  destruct (falsy_string (url body)) eqn:Hl; [reject | ].
  destruct (falsy_string (type body)) eqn:Ht; [reject | ].
  cbn [orb] in Hout.
  destruct (includes _ _) eqn:Hty; cbn [negb] in Hout; [ | reject].
  destruct (URL_parse e (text (url body))) as [p | ] eqn:Hp; [ | reject].
  unfold bind, insert_select_single in Hout.
  destruct (fault e (from_monitors_insert _)); [reject | ].
  destruct (insert_monitor _ _ _ _ _) as [err | [row d']] eqn:Hins;
    [reject | ].
  apply StoreFacts.insert_monitor_inv in Hins.
  cbn [nm_user_id nm_name nm_url nm_type nm_interval_seconds] in Hins.
  destruct Hins as (Hrow & -> & _ & _ & Htc & Hfresh & _). subst out.
  cbn [fst snd status payload db record_call calls error data ret].
  split; [intro Hs; exfalso; apply Hs; reflexivity | intros _].
  exists u, body, row. rewrite Hrow.
  cbn [Monitor.id Monitor.name Monitor.url Monitor.type].
  split; [split; assumption | ]. split; [reflexivity | ].
  split; [reflexivity | ]. split; [reflexivity | ]. split; [reflexivity | ].
  split; [destruct (name body); [reflexivity | discriminate] | ].
  split.
  { intro E. destruct (name body) as [n | ]; [ | discriminate].
    cbn in E. subst n. discriminate Hn. }
  split; [exact Htc | ]. split; [congruence | exact Hfresh].
Qed.

(** A monitor is stored exactly when [createMonitor] answers 201: then the
    caller is signed in, exactly one row is appended, owned by the caller,
    with the generated id and the insert's timestamp, the name, url and
    type of the request, and the requested interval (300 when missing or
    0); its name is not empty, its type is one of the three and its url
    parses. With any other answer the database is as before. *)
Theorem createMonitor_all_or_nothing (e : env) (req : create_request)
        (w : world) :
  let out := createMonitor e req w in
  (status (fst out) <> 201 -> db (snd out) = db w)
  /\ (status (fst out) = 201 ->
      exists u body row,
        authenticated e u /\ json req = Some body
        /\ payload (fst out) = monitor_body (Some row)
        /\ db (snd out)
           = mkDatabase (users (db w)) (monitors (db w) ++ [row])
                        (monitor_checks (db w))
        /\ row = Monitor.mk (uuid_generate_v4 e) u (text (name body))
                            (text (url body)) (text (type body))
                            (or_default (interval_seconds body) 300)
                            (sql_now e)
        /\ name body = Some (Monitor.name row) /\ Monitor.name row <> ""
        /\ type_check (Monitor.type row) = true
        /\ URL_parse e (Monitor.url row) <> None
        /\ ~ In (Monitor.id row) (map Monitor.id (monitors (db w)))).
Proof. exact (createMonitor_cases e req w). Qed.

(** For a signed-in caller, [createMonitor] answers 400 exactly when a
    required field is missing or empty, the type is not one of the three,
    or the url does not parse; then it has made no call to the database. *)
Theorem createMonitor_400_iff (e : env) (u : uuid)
        (body : CreateMonitorRequest) (w : world) :
  authenticated e u ->
  let out := createMonitor e (mkCreateRequest "POST" (Some body)) w in
  (status (fst out) = 400 <->
   falsy_string (name body) || falsy_string (url body)
   || falsy_string (type body) = true
   \/ includes ["http"; "https"; "ping"] (text (type body)) = false
   \/ URL_parse e (text (url body)) = None)
  /\ (status (fst out) = 400 -> snd out = w).
Proof.
  intros [He Hu] out.
  assert (Hout : out = createMonitor e (mkCreateRequest "POST" (Some body)) w)
    by reflexivity.
  clearbody out. unfold createMonitor in Hout.
  cbn [method json String.eqb Ascii.eqb Bool.eqb negb] in Hout.
  rewrite He, Hu in Hout.
  destruct (falsy_string (name body) || falsy_string (url body)
            || falsy_string (type body)) eqn:Hreq.
  { subst out. cbn. split; [split; auto | reflexivity]. }
  destruct (includes _ _) eqn:Hty; cbn [negb] in Hout.
  2: { subst out. cbn. split; [split; auto | reflexivity]. }
  destruct (URL_parse e (text (url body))) as [p | ] eqn:Hp.
  2: { subst out. cbn. split; [split; auto | reflexivity]. }
  assert (Hno : status (fst out) <> 400).
  { subst out. unfold bind, insert_select_single.
    destruct (fault e _); [cbn; discriminate | ].
    destruct (insert_monitor _ _ _ _ _) as [err | [row d']];
      cbn; discriminate. }
  split; [split | ]; [contradiction | | contradiction].
  intros [H | [H | H]]; discriminate H.
Qed.

Lemma entries_monitors (e : env) (u : uuid) (d : database)
      (l : list Monitor.t) :
  map monitor (map (annotate e u d) l) = l.
Proof.
  rewrite map_map. erewrite map_ext; [apply map_id | ].
  intro m. apply EdgeFacts.annotate_monitor.
Qed.

(** A successful listing shows the caller's monitors and no others, each
    once, ordered by [created_at] from newest to oldest. *)
Theorem getMonitors_scoped_newest_first (e : env) (u : uuid) (w : world) :
  authenticated e u ->
  fault e from_monitors_select = None ->
  exists entries w',
    getMonitors e "GET" w
    = (mkResponse 200 (list_data entries (Z.of_nat (List.length entries))), w')
    /\ Permutation (map monitor entries)
                   (filter (fun m => (Monitor.user_id m =? u)%string)
                           (monitors (db w)))
    /\ (forall x, In x entries -> Monitor.user_id (monitor x) = u)
    /\ StronglySorted
         (fun a b => Monitor.created_at b <= Monitor.created_at a)
         (map monitor entries).
Proof.
  intros Ha Hf. rewrite (EdgeFacts.getMonitors_run e u w Ha Hf).
  eexists; eexists; split; [rewrite length_map; reflexivity | ].
  rewrite entries_monitors.
  assert (Hfilter : visible_monitors (db w) u
                    = filter (fun m => (Monitor.user_id m =? u)%string)
                             (monitors (db w))).
  { unfold visible_monitors. apply filter_ext. intro m.
    unfold own_monitor. apply String.eqb_sym. }
  split; [ | split].
  - unfold listed. rewrite <- Hfilter. apply SchemaFacts.order_by_desc_perm.
  - intros x Hx. apply in_map_iff in Hx. destruct Hx as (m & <- & Hm).
    rewrite EdgeFacts.annotate_monitor.
    apply (EdgeFacts.listed_owned (db w) u). exact Hm.
  - apply (StoreFacts.order_by_desc_sorted Monitor.created_at).
Qed.

(** [getMonitors] never changes the database, whatever the request and
    the caller; and when the query for the monitors fails it answers 500
    "Failed to fetch monitors" without any per-monitor lookup. *)
Theorem getMonitors_never_writes (e : env) (w : world) :
  (forall req_method, db (snd (getMonitors e req_method w)) = db w)
  /\ (forall u, authenticated e u ->
                fault e from_monitors_select <> None ->
                getMonitors e "GET" w
                = (mkResponse 500 (list_error "Failed to fetch monitors"),
                   record_call from_monitors_select w)).
Proof.
  split.
  - intro req_method. unfold getMonitors.
    destruct (req_method =? "OPTIONS")%string; [reflexivity | ].
    destruct (req_method =? "GET")%string; [ | reflexivity]. cbn [negb].
    destruct (getUser_error e); [reflexivity | ].
    destruct (getUser_user e) as [u | ]; [ | reflexivity].
    unfold bind at 1. unfold select_monitors.
    destruct (fault e from_monitors_select); [reflexivity | ].
    cbn [error data]. unfold bind.
    rewrite EdgeFacts.Promise_all_map_run. reflexivity.
  - intros u [He Hu] Hf. unfold getMonitors.
    cbn [String.eqb Ascii.eqb Bool.eqb negb]. rewrite He, Hu.
    unfold bind, select_monitors.
    destruct (fault e from_monitors_select); [reflexivity | congruence].
Qed.

Lemma annotate_eta (e : env) (u : uuid) (d : database) (m : Monitor.t) :
  annotate e u d m = mkWithStatus m (latest_status (annotate e u d m)).
Proof.
  rewrite <- (EdgeFacts.annotate_monitor e u d m) at 2.
  destruct (annotate e u d m); reflexivity.
Qed.

(** A monitor without checks is annotated with a null status. *)
Lemma annotate_unchecked (e : env) (u : uuid) (d : database) (m : Monitor.t) :
  (forall c, In c (monitor_checks d) ->
             MonitorCheck.monitor_id c <> Monitor.id m) ->
  annotate e u d m = mkWithStatus m None.
Proof.
  intro Hnone. rewrite annotate_eta. f_equal.
  destruct (fault e (lookup_call m)) eqn:Hf.
  - apply EdgeFacts.annotate_fault. congruence.
  - rewrite (EdgeFacts.annotate_ok e u d m Hf).
    destruct (SchemaFacts.latest_cases (visible_checks d u) (Monitor.id m))
      as [[E _] | (c & Hc & Hid & _)]; [now rewrite E | ].
    exfalso. unfold visible_checks in Hc. apply filter_In in Hc.
    exact (Hnone c (proj1 Hc) Hid).
Qed.

(** A monitor just created is the first entry of the caller's next listing,
    with a null status, followed by the monitors listed before, when the
    insert's timestamp is later than the [created_at] of the caller's other
    monitors. *)
Theorem created_monitor_listed_first (e : env) (u : uuid)
        (req : create_request) (w w1 : world) (row : Monitor.t) :
  well_formed (db w) ->
  authenticated e u ->
  createMonitor e req w = (mkResponse 201 (monitor_body (Some row)), w1) ->
  (forall m, In m (monitors (db w)) -> Monitor.user_id m = u ->
             Monitor.created_at m < sql_now e) ->
  fault e from_monitors_select = None ->
  exists rest w2,
    getMonitors e "GET" w1
    = (mkResponse 200
         (list_data (mkWithStatus row None :: rest)
                    (Z.of_nat (S (List.length rest)))), w2)
    /\ map monitor rest = listed (db w) u.
Proof.
  intros Hwf Ha Hrun Hnew Hf.
  destruct (createMonitor_cases e req w) as [_ Hok].
  rewrite Hrun in Hok. cbn [fst snd status payload] in Hok.
  destruct (Hok eq_refl)
    as (u' & body & row' & [_ Hu'] & _ & [= <-] & Hdb & Hrow & _ & _ & _ & _
        & Hfresh).
  assert (u' = u) as -> by (destruct Ha as [_ Hu]; congruence).
  assert (Hlisted : listed (db w1) u = row :: listed (db w) u).
  { unfold listed, visible_monitors. rewrite Hdb. cbn [monitors].
    rewrite filter_app. cbn [filter]. unfold own_monitor at 2.
    rewrite Hrow. cbn [Monitor.user_id]. rewrite String.eqb_refl.
    rewrite <- Hrow.
    apply (StoreFacts.order_by_desc_newest Monitor.created_at).
    intros m Hm. apply filter_In in Hm. destruct Hm as [Hm Hown].
    unfold own_monitor in Hown. apply String.eqb_eq in Hown.
    rewrite Hrow. cbn [Monitor.created_at]. apply Hnew; auto. }
  rewrite (EdgeFacts.getMonitors_run e u w1 Ha Hf), Hlisted.
  cbn [map List.length].
  exists (map (annotate e u (db w1)) (listed (db w) u)). eexists.
  rewrite length_map, entries_monitors.
  split; [ | reflexivity]. rewrite annotate_unchecked; [reflexivity | ].
  intros c Hc E. rewrite Hdb in Hc. cbn [monitor_checks] in Hc.
  destruct (monitor_checks_monitor_id_fkey _ Hwf c Hc) as (m & Hm & Hid).
  apply Hfresh. apply in_map_iff. exists m. split; [congruence | exact Hm].
Qed.

(** After a check answered 200 whose timestamp is later than the earlier
    checks of that monitor, the latest-status function returns the status
    and timestamp of that check, and the owner's next listing shows them
    on that monitor. *)
Theorem check_then_listing
        (uuid_in : string -> option uuid)
        (e1 : Lifecycle.env) (req : Lifecycle.request)
        (w1 w1' : Lifecycle.world) (cr : Lifecycle.CheckResult.t)
        (e : env) (u : uuid) (cs : list db_call) :
  Lifecycle.runCheck uuid_in e1 req w1
  = (mkResponse 200 (Lifecycle.check_data cr), w1') ->
  (forall c, In c (monitor_checks (Lifecycle.db w1)) ->
             MonitorCheck.monitor_id c = Lifecycle.CheckResult.monitor_id cr ->
             MonitorCheck.checked_at c < Lifecycle.sql_now e1) ->
  Lifecycle.getUser_user e1 = Some u ->
  authenticated e u ->
  fault e from_monitors_select = None ->
  fault e (rpc_get_latest_monitor_status
             (Lifecycle.CheckResult.monitor_id cr)) = None ->
  get_latest_monitor_status (monitor_checks (Lifecycle.db w1'))
                            (Lifecycle.CheckResult.monitor_id cr)
  = [StatusRow.mk (Lifecycle.CheckResult.monitor_id cr)
                  (Lifecycle.CheckResult.status cr)
                  (Lifecycle.CheckResult.checked_at cr)]
  /\ exists entries w2,
      getMonitors e "GET" (mkWorld (Lifecycle.db w1') cs)
      = (mkResponse 200
           (list_data entries (Z.of_nat (List.length entries))), w2)
      /\ exists x,
          In x entries
          /\ Monitor.id (monitor x) = Lifecycle.CheckResult.monitor_id cr
          /\ latest_status x
             = Some [ ("status",
                       status_json (Lifecycle.CheckResult.status cr));
                      ("checked_at",
                       JNum (Lifecycle.CheckResult.checked_at cr));
                      ("response_time_ms", JUndefined) ].
Proof.
  intros Hrun Hlater Hu1 Ha Hf Hfl.
  destruct (LifecycleFacts.runCheck_cases uuid_in e1 req w1) as [_ Hok].
  rewrite Hrun in Hok. cbn [fst snd status payload] in Hok.
  destruct (Hok eq_refl)
    as (u' & m & r & text & [_ Hu'] & _ & _ & Hin & Hown & _ & Hdb & [= ->]).
  assert (u' = u) as -> by congruence.
  unfold as_CheckResult, recorded in *.
  cbn [Lifecycle.CheckResult.monitor_id Lifecycle.CheckResult.status
       Lifecycle.CheckResult.checked_at MonitorCheck.monitor_id
       MonitorCheck.status MonitorCheck.checked_at] in *.
  assert (Hlatest :
    get_latest_monitor_status (monitor_checks (Lifecycle.db w1'))
                              (Monitor.id m)
    = [StatusRow.mk (Monitor.id m) (Probe.status r) (Lifecycle.sql_now e1)]).
  { rewrite Hdb. cbn [monitor_checks]. unfold get_latest_monitor_status.
    rewrite filter_app. cbn [filter MonitorCheck.monitor_id].
    rewrite String.eqb_refl, map_app. cbn [map].
    rewrite (StoreFacts.order_by_desc_newest StatusRow.checked_at).
    - reflexivity.
    - intros y Hy. apply in_map_iff in Hy. destruct Hy as (c & <- & Hc).
      apply filter_In in Hc. destruct Hc as [Hc E].
      apply String.eqb_eq in E. cbn. apply Hlater; assumption. }
  split; [exact Hlatest | ].
  set (d' := Lifecycle.db w1') in *.
  assert (Hmon : monitors d' = monitors (Lifecycle.db w1))
    by (rewrite Hdb; reflexivity).
  rewrite (EdgeFacts.getMonitors_run e u (mkWorld d' cs) Ha Hf).
  cbn [db]. eexists; eexists; split; [rewrite length_map; reflexivity | ].
  exists (annotate e u d' m).
  assert (Hin' : In m (monitors d')) by (rewrite Hmon; exact Hin).
  split; [ | split].
  - apply in_map. unfold listed.
    apply (Permutation_in _
             (Permutation_sym (SchemaFacts.order_by_desc_perm _ _))).
    unfold visible_monitors. apply filter_In. split; [exact Hin' | ].
    unfold own_monitor. rewrite Hown. apply String.eqb_refl.
  - now rewrite EdgeFacts.annotate_monitor.
  - rewrite (EdgeFacts.annotate_ok e u d' m Hfl).
    rewrite (EdgeFacts.latest_visible d' u m Hin' Hown), Hlatest.
    reflexivity.
Qed.
End ListingFacts.

(* ================================================================== *)
(** ** The probe, continued *)

Module ProbeMore.
Import JS Probe Notions.

(* One call of [fetch] from the start of a probe: the call it logs and
   the time by which the awaiting code runs again. *)
Lemma fetch_from_start (rt : runtime) (url : string) (method : http_method)
      (ms : N) :
  issued (snd (fetch rt url method ms start)) = [mkFetch url method ms]
  /\ (elapsed (snd (fetch rt url method ms start))
      <= ms + timer_lag rt + resume_lag rt)%N.
Proof.
  split; [apply (ProbeFacts.fetch_issued rt url method ms start) | ].
  unfold fetch.
  pose proof (ProbeFacts.http_fetch_state rt method (elapsed start + ms)%N
                20 url start) as [_ Hle].
  destruct (http_fetch rt 20 url method _ start) as [o s'].
  cbn [snd elapsed start N.add] in *. lia.
Qed.

(** A probe of type "ping" whose url does not parse calls no fetch and is
    [down]. Otherwise it calls fetch once, with method HEAD, the origin
    (scheme and host, without the path) and a 5000 ms deadline, and is
    [up] exactly when that fetch resolves, whatever the status code. In
    terms of the first exchange: an answer before the deadline that does
    not redirect makes the probe [up]; a connection failure, an answer
    that has not arrived when the deadline's timer runs, and silence make
    it [down]. *)
Theorem ping_probe_classification (rt : runtime) (url : string) :
  exists r s,
    run_performCheck rt url "ping" = (Normal r, s)
    /\ (URL_parse rt url = None ->
        status r = down /\ issued s = [] /\ error_message r <> None)
    /\ (forall u, URL_parse rt url = Some u ->
          let origin := protocol u ++ "//" ++ host u in
          issued s = [mkFetch origin HEAD 5000]
          /\ (status r = up <->
              exists resp, fetched rt origin HEAD 5000 = Normal resp)
          /\ (forall d resp loc,
                 net rt origin HEAD = Responds d resp loc -> (d < 5000)%N ->
                 loc = None \/ redirect_status (resp_status resp) = false ->
                 status r = up)
          /\ (net rt origin HEAD = Silent
              \/ (exists d resp loc,
                     net rt origin HEAD = Responds d resp loc
                     /\ (5000 + timer_lag rt <= d)%N)
              \/ (exists d e, net rt origin HEAD = Fails d e) ->
              status r = down)).
Proof.
  rewrite ProbeFacts.ping_run.
  destruct (URL_parse rt url) as [u | ] eqn:Hp.
  - set (origin := protocol u ++ "//" ++ host u).
    destruct (ProbeFacts.fetch_first rt origin HEAD 5000)
      as (Hanswer & Hfail & Hlate).
    destruct (fetch_from_start rt origin HEAD 5000) as [Hissued _].
    assert (Hfetched : fetched rt origin HEAD 5000
                       = fst (fetch rt origin HEAD 5000 start))
      by reflexivity.
    destruct (fetch rt origin HEAD 5000 start) as [[resp | e] s];
      cbn [fst snd] in Hfetched, Hissued; unfold caught;
      (eexists; eexists; split; [reflexivity | ]);
      (split; [discriminate | ]); intros u' [= <-]; cbv zeta;
      fold origin; cbn [status];
      (split; [exact Hissued | ]).
    + split; [split; [intros _; exists resp; exact Hfetched | reflexivity] | ].
      split; [reflexivity | ].
      intros [Hs | [Hl | (d & e & Hnet)]].
      * rewrite (Hlate (or_introl Hs)) in Hfetched. discriminate Hfetched.
      * rewrite (Hlate (or_intror (or_introl Hl))) in Hfetched.
        discriminate Hfetched.
      * destruct (ProbeFacts.fetch_fails rt origin HEAD 5000 d e Hnet)
          as [Hthrow | Hthrow];
          rewrite Hthrow in Hfetched; discriminate Hfetched.
    + split; [split; [discriminate | ] | ].
      * intros [resp Hr]. rewrite Hr in Hfetched. discriminate Hfetched.
      * split; [ | reflexivity].
        intros d resp loc Hnet Hd Hloc.
        rewrite (Hanswer d resp loc Hnet Hd Hloc) in Hfetched.
        discriminate Hfetched.
  - unfold caught. eexists; eexists; split; [reflexivity | ].
    split; [intros _; cbn; repeat split; discriminate | discriminate].
Qed.

(** A probe calls fetch at most once and its result is there within 10000
    ms of real time, 5000 for type "ping", plus the lateness of the
    deadline's timer and of the resumption after the fetch; under a clock
    that advances with real time the latency it reports is the time it
    took. *)
Theorem probe_time_bounded (rt : runtime) (url type : string) :
  exists r s,
    run_performCheck rt url type = (Normal r, s)
    /\ (List.length (issued s) <= 1)%nat
    /\ (elapsed s <= 10000 + timer_lag rt + resume_lag rt)%N
    /\ (type = "ping" ->
        (elapsed s <= 5000 + timer_lag rt + resume_lag rt)%N)
    /\ (forall t0, (forall tau, Date_now rt tau = t0 + Z.of_N tau) ->
        forall ms, response_time_ms r = Some ms ->
                   ms = Z.of_N (elapsed s)
                   /\ 0 <= ms
                      <= 10000 + Z.of_N (timer_lag rt + resume_lag rt)).
Proof.
  destruct (ProbeFacts.type_cases type) as [Hh | [-> | (H1 & H2 & H3)]].
  - rewrite (ProbeFacts.http_run rt url type Hh).
    destruct (fetch_from_start rt url GET 10000) as [Hissued Hle].
    destruct (fetch rt url GET 10000 start) as [[resp | e] s];
      cbn [snd] in Hissued, Hle; unfold caught; cbv zeta;
      try destruct (ok resp || _);
      (eexists; eexists; split; [reflexivity | ]);
      cbn [response_time_ms];
      (split; [rewrite Hissued; cbn; lia | ]);
      (split; [exact Hle | ]);
      (split; [intros ->; destruct Hh as [Hh | Hh]; discriminate Hh | ]);
      intros t0 Hclock ms [= <-]; rewrite !Hclock; lia.
  - rewrite ProbeFacts.ping_run.
    destruct (URL_parse rt url) as [u | ].
    + destruct (fetch_from_start rt (protocol u ++ "//" ++ host u)
                  HEAD 5000) as [Hissued Hle].
      destruct (fetch rt _ HEAD 5000 start) as [[resp | e] s];
        cbn [snd] in Hissued, Hle; unfold caught;
        (eexists; eexists; split; [reflexivity | ]);
        cbn [response_time_ms];
        (split; [rewrite Hissued; cbn; lia | ]);
        (split; [lia | ]);
        (split; [intros _; exact Hle | ]);
        intros t0 Hclock ms [= <-]; rewrite !Hclock; lia.
    + unfold caught. eexists; eexists; split; [reflexivity | ].
      cbn [response_time_ms start issued elapsed List.length].
      split; [lia | ]. split; [lia | ]. split; [intros _; lia | ].
      intros t0 Hclock ms [= <-]. rewrite !Hclock. lia.
  - rewrite (ProbeFacts.unsupported_run rt url type H1 H2 H3).
    eexists; eexists; split; [reflexivity | ].
    cbn [response_time_ms start issued elapsed List.length].
    split; [lia | ]. split; [lia | ]. split; [intros _; lia | ].
    intros t0 Hclock ms Hms. discriminate Hms.
Qed.
End ProbeMore.

(* ================================================================== *)
(** ** The dashboard *)

Module DashboardFacts.
Import JS Schema Dashboard.
Import Edge(MonitorWithStatus, mkWithStatus, monitor, latest_status).

Lemma get_assign (o : object) (k k' : string) (v : jsval) :
  get (assign o k v) k' = if (k =? k')%string then v else get o k'.
Proof.
  induction o as [| [k0 v0] o IH]; simpl.
  - destruct (k =? k')%string; reflexivity.
  - destruct (k0 =? k)%string eqn:E0; simpl.
    + apply String.eqb_eq in E0. subst k0.
      destruct (k =? k')%string; reflexivity.
    + destruct (k0 =? k')%string eqn:E1; [ | exact IH].
      apply String.eqb_eq in E1. subst k0.
      rewrite String.eqb_sym, E0. reflexivity.
Qed.

(** On time values that are safe integers with a safe difference,
    [formatTime] shows "just now" for an age under one minute (or a date
    in the future); otherwise a count of at least 1 in minutes (below 60),
    hours (below 24) or days, and the count is the age rounded down to
    that unit. *)
Theorem formatTime_floor (now date : Z) :
  safe_integer now && safe_integer date && safe_integer (now - date) = true ->
  let age := now - date in
  (age < 60000 -> formatTime now date = Some "just now")
  /\ (60000 <= age ->
      exists n unit ms,
        formatTime now date = Some (number_to_string n ++ unit ++ " ago")
        /\ 1 <= n /\ n * ms <= age < (n + 1) * ms
        /\ ((unit = "m" /\ ms = 60000 /\ n < 60)
            \/ (unit = "h" /\ ms = 3600000 /\ n < 24)
            \/ (unit = "d" /\ ms = 86400000))).
Proof.
  intros Hsafe age. unfold formatTime. rewrite Hsafe. fold age. cbv zeta.
  assert (Hm : 60000 * (age / 60000) <= age < 60000 * (age / 60000 + 1)).
  { split; [apply Z.mul_div_le; lia | ].
    rewrite Z.add_1_r. apply Z.mul_succ_div_gt. lia. }
  assert (Hh : 3600000 * (age / 3600000) <= age
               < 3600000 * (age / 3600000 + 1)).
  { split; [apply Z.mul_div_le; lia | ].
    rewrite Z.add_1_r. apply Z.mul_succ_div_gt. lia. }
  assert (Hd : 86400000 * (age / 86400000) <= age
               < 86400000 * (age / 86400000 + 1)).
  { split; [apply Z.mul_div_le; lia | ].
    rewrite Z.add_1_r. apply Z.mul_succ_div_gt. lia. }
  assert (Ehh : age / 60000 / 60 = age / 3600000)
    by (rewrite Z.div_div by lia; reflexivity).
  assert (Edd : age / 60000 / 60 / 24 = age / 86400000)
    by (rewrite !Z.div_div by lia; reflexivity).
  split.
  - intro Hlt. destruct (age / 60000 <? 1) eqn:E; [reflexivity | ].
    apply Z.ltb_ge in E. lia.
  - intro Hge.
    destruct (age / 60000 <? 1) eqn:E1; [apply Z.ltb_lt in E1; lia | ].
    apply Z.ltb_ge in E1.
    destruct (age / 60000 <? 60) eqn:E2.
    { apply Z.ltb_lt in E2. exists (age / 60000), "m", 60000.
      split; [reflexivity | ]. split; [lia | ]. split; [lia | ].
      left. auto. }
    apply Z.ltb_ge in E2. rewrite Ehh.
    destruct (age / 3600000 <? 24) eqn:E3.
    { apply Z.ltb_lt in E3. exists (age / 3600000), "h", 3600000.
      split; [reflexivity | ]. split; [lia | ]. split; [lia | ].
      right. left. auto. }
    apply Z.ltb_ge in E3. rewrite <- Ehh, Edd.
    exists (age / 86400000), "d", 86400000.
    split; [reflexivity | ]. split; [lia | ]. split; [lia | ].
    right. right. auto.
Qed.

(** The update after a manual check keeps the list of monitors, leaves
    alone every entry of another monitor and every entry whose
    [latest_status] is null (a monitor never checked before stays without
    status), and in an entry of the checked monitor that has a status sets
    [status] and [checked_at] and keeps every other field, so the latency
    shown stays the one of the previous check. *)
Theorem handleCheckCompleted_updates
        (now : timestamptz) (id : string) (st : Probe.check_status)
        (prev : list MonitorWithStatus) :
  let next := handleCheckCompleted now id st prev in
  map monitor next = map monitor prev
  /\ forall i m,
      nth_error prev i = Some m ->
      exists m',
        nth_error next i = Some m'
        /\ (Monitor.id (monitor m) <> id \/ latest_status m = None -> m' = m)
        /\ (forall o,
               Monitor.id (monitor m) = id -> latest_status m = Some o ->
               exists o',
                 latest_status m' = Some o'
                 /\ get o' "status" = Edge.status_json st
                 /\ get o' "checked_at" = JNum now
                 /\ forall k, k <> "status" -> k <> "checked_at" ->
                              get o' k = get o k).
Proof.
  intro next. split.
  - unfold next, handleCheckCompleted. rewrite map_map.
    apply map_ext. intro m.
    destruct (Monitor.id (monitor m) =? id)%string;
      destruct (latest_status m); reflexivity.
  - intros i m Hi. unfold next, handleCheckCompleted.
    rewrite nth_error_map, Hi. cbn [option_map].
    eexists. split; [reflexivity | ].
    destruct (Monitor.id (monitor m) =? id)%string eqn:E.
    + apply String.eqb_eq in E.
      destruct (latest_status m) as [o | ] eqn:Hl.
      * split; [intros [H | H]; [contradiction | discriminate] | ].
        intros o0 _ [= <-]. eexists. split; [reflexivity | ].
        rewrite !get_assign. cbn [String.eqb Ascii.eqb Bool.eqb].
        split; [reflexivity | split; [reflexivity | ]].
        intros k Hk1 Hk2. rewrite !get_assign.
        apply String.eqb_neq in Hk1, Hk2.
        rewrite (String.eqb_sym "checked_at" k), Hk2.
        rewrite (String.eqb_sym "status" k), Hk1. reflexivity.
      * split; [reflexivity | discriminate].
    + apply String.eqb_neq in E.
      split; [reflexivity | intros o Hid; contradiction].
Qed.
End DashboardFacts.

(* ================================================================== *)
(** ** The scenarios, run *)

Module ScenarioFacts.
Import JS Schema Store Notions Terms Samples Scenarios.

Lemma sample_db_well_formed : well_formed sample_db.
Proof.
  constructor; cbn [sample_db monitors monitor_checks users map].
  - repeat constructor; cbn; intuition discriminate.
  - repeat constructor; cbn; intuition discriminate.
  - intros m [<- | [<- | []]]; cbn; auto.
  - intros c [<- | [<- | []]]; exists m1; cbn; auto.
  - intros m [<- | [<- | []]]; reflexivity.
  - intros m [<- | [<- | []]]; reflexivity.
  - intros c [<- | [<- | []]]; reflexivity.
Defined.

Lemma owner_signed_in : signed_in owner_env "u1".
Proof. split; reflexivity. Defined.

Lemma stranger_signed_in : signed_in stranger_env "u2".
Proof. split; reflexivity. Defined.

(** A ping of a parseable url whose origin answers after 120 ms. *)
Lemma ping_probe_classification_witness :
  (Probe.URL_parse sample_runtime "https://example.test/health"
   = Some (Probe.mkURL "https:" "example.test")
   /\ Probe.net sample_runtime "https://example.test" Probe.HEAD
      = Probe.Responds 120 (Probe.mkResponse 200 "OK") None
   /\ (120 < 5000)%N)
  /\ exists r s,
    Probe.run_performCheck sample_runtime "https://example.test/health" "ping"
    = (Probe.Normal r, s)
    /\ Probe.issued s = [Probe.mkFetch "https://example.test" Probe.HEAD 5000]
    /\ Probe.status r = Probe.up.
Proof.
  assert (Hd : (120 < 5000)%N) by reflexivity.
  split; [split; [reflexivity | split; [reflexivity | exact Hd]] | ].
  destruct (ProbeMore.ping_probe_classification sample_runtime
              "https://example.test/health")
    as (r & s & Hrun & _ & Hok).
  destruct (Hok (Probe.mkURL "https:" "example.test") eq_refl)
    as (Hlog & _ & Hfirst & _).
  exists r, s. split; [exact Hrun | split; [exact Hlog | ]].
  exact (Hfirst 120%N (Probe.mkResponse 200 "OK") None eq_refl Hd
           (or_introl eq_refl)).
Defined.

(** A probe of a target that answers after 20 s, under a clock that
    advances with real time and a timer that fires 12 ms late. *)
Lemma probe_time_bounded_witness :
  (forall tau, Probe.Date_now sample_runtime tau
               = 1700000000000 + Z.of_N tau)
  /\ exists r s,
    Probe.run_performCheck sample_runtime "https://slow.test" "https"
    = (Probe.Normal r, s)
    /\ (Probe.elapsed s <= 10012)%N
    /\ forall ms, Probe.response_time_ms r = Some ms -> 0 <= ms <= 10012.
Proof.
  split; [intro tau; reflexivity | ].
  destruct (ProbeMore.probe_time_bounded sample_runtime
              "https://slow.test" "https")
    as (r & s & Hrun & _ & Hel & _ & Hms).
  exists r, s. split; [exact Hrun | split; [exact Hel | ]].
  intros ms E.
  exact (proj2 (Hms 1700000000000 (fun tau => eq_refl) ms E)).
Defined.

(** The three writes on the sample database. *)
Lemma writes_preserve_well_formed_witness :
  well_formed sample_db
  /\ well_formed (delete_monitor sample_db "u1" "m1" "u1").
Proof.
  split; [exact sample_db_well_formed | ].
  exact (proj2 (proj2 (StoreFacts.writes_preserve_well_formed
                         sample_db sample_db_well_formed))
           "u1" "m1" "u1").
Defined.

(** Deleting [m1], which has two checks. *)
Lemma delete_cascades_witness :
  (well_formed sample_db /\ In m1 (monitors sample_db))
  /\ get_latest_monitor_status
       (monitor_checks (delete_monitor sample_db "u1" "m1" "u1")) "m1" = [].
Proof.
  assert (Hin : In m1 (monitors sample_db)) by (left; reflexivity).
  split; [split; [exact sample_db_well_formed | exact Hin] | ].
  exact (proj2 (proj2 (proj2 (StoreFacts.delete_cascades
                                sample_db m1 sample_db_well_formed Hin)))).
Defined.

(** The user "u2" looks for [m1], which "u1" owns. *)
Lemma foreign_monitor_hidden_witness :
  (well_formed sample_db /\ In m1 (monitors sample_db)
   /\ Monitor.user_id m1 <> "u2")
  /\ select_by_id sample_db "u2" "m1" = []
  /\ get_latest_monitor_status (visible_checks sample_db "u2") "m1" = [].
Proof.
  assert (Hin : In m1 (monitors sample_db)) by (left; reflexivity).
  assert (Hne : Monitor.user_id m1 <> "u2") by discriminate.
  split; [split; [exact sample_db_well_formed | split; assumption] | ].
  exact (StoreFacts.foreign_monitor_hidden sample_db "u2" m1
           sample_db_well_formed Hin Hne).
Defined.

(** The user "u2" tries to store a check for [m1]. *)
Lemma insert_check_needs_owned_monitor_witness :
  (forall m, In m (monitors sample_db) -> Monitor.id m = "m1" ->
             Monitor.user_id m <> "u2")
  /\ exists err,
    insert_check sample_db "u2" "c3" 3000
                 (mkNewCheck "m1" Probe.up (Some 120) None) = inl err.
Proof.
  assert (H : forall m, In m (monitors sample_db) -> Monitor.id m = "m1" ->
                        Monitor.user_id m <> "u2").
  { intros m [<- | [<- | []]] _; discriminate. }
  split; [exact H | ].
  exact (StoreFacts.insert_check_needs_owned_monitor sample_db "u2" "c3" 3000
           (mkNewCheck "m1" Probe.up (Some 120) None) H).
Defined.

(** The owner checks [m1], spelling its id in upper case: the target
    answers 200 after 120 ms. *)
Lemma runCheck_all_or_nothing_witness :
  Edge.status (fst (Lifecycle.runCheck sample_uuid_in owner_env
                      (naming "POST" "M1") start_world)) = 200
  /\ exists u m r,
    signed_in owner_env u
    /\ sample_uuid_in "M1" = Some (Monitor.id m)
    /\ In m (monitors sample_db)
    /\ Lifecycle.db (snd (Lifecycle.runCheck sample_uuid_in owner_env
                            (naming "POST" "M1") start_world))
       = mkDatabase (users sample_db) (monitors sample_db)
                    (monitor_checks sample_db ++ [recorded owner_env m r]).
Proof.
  split; [reflexivity | ].
  destruct (proj2 (LifecycleFacts.runCheck_all_or_nothing sample_uuid_in
                     owner_env (naming "POST" "M1") start_world) eq_refl)
    as (u & m & r & text & Hs & [= <-] & Hparse & Hin & _ & _ & Hdb & _).
  exists u, m, r.
  split; [exact Hs | split; [exact Hparse | split; [exact Hin | exact Hdb]]].
Defined.

(** The owner deletes [m1], spelling its id in upper case. *)
Lemma deleteMonitor_all_or_nothing_witness :
  Edge.status (fst (Lifecycle.deleteMonitor sample_uuid_in owner_env
                      (naming "DELETE" "M1") start_world)) = 200
  /\ exists u m,
    signed_in owner_env u
    /\ Lifecycle.db (snd (Lifecycle.deleteMonitor sample_uuid_in owner_env
                            (naming "DELETE" "M1") start_world))
       = delete_monitor sample_db u (Monitor.id m) u
    /\ Edge.payload (fst (Lifecycle.deleteMonitor sample_uuid_in owner_env
                            (naming "DELETE" "M1") start_world))
       = Lifecycle.deleted "Monitor deleted successfully" "M1".
Proof.
  split; [reflexivity | ].
  destruct (proj2 (LifecycleFacts.deleteMonitor_all_or_nothing sample_uuid_in
                     owner_env (naming "DELETE" "M1") start_world) eq_refl)
    as (u & m & text & Hs & [= <-] & _ & _ & _ & Hdb & Hpay).
  exists u, m. split; [exact Hs | split; [exact Hdb | exact Hpay]].
Defined.

Lemma deleteMonitor_removes_history_witness :
  (well_formed (Lifecycle.db start_world)
   /\ Edge.status (fst (Lifecycle.deleteMonitor sample_uuid_in owner_env
                          (naming "DELETE" "M1") start_world)) = 200)
  /\ exists text id,
    requested (naming "DELETE" "M1") = Some text
    /\ sample_uuid_in text = Some id
    /\ get_latest_monitor_status
         (monitor_checks
            (Lifecycle.db (snd (Lifecycle.deleteMonitor sample_uuid_in
                                  owner_env (naming "DELETE" "M1")
                                  start_world)))) id
       = [].
Proof.
  split; [split; [exact sample_db_well_formed | reflexivity] | ].
  destruct (LifecycleFacts.deleteMonitor_removes_history sample_uuid_in
              owner_env (naming "DELETE" "M1") start_world
              sample_db_well_formed eq_refl)
    as (text & id & Hreq & Hparse & _ & _ & Hlatest & _).
  exists text, id.
  split; [exact Hreq | split; [exact Hparse | exact Hlatest]].
Defined.

(** The user "u2" names [m1], which "u1" owns. *)
Lemma not_owned_is_not_found_witness :
  (signed_in stranger_env "u2" /\ "m1" <> ""
   /\ forall id m, sample_uuid_in "m1" = Some id ->
                   In m (monitors (Lifecycle.db start_world)) ->
                   Monitor.id m = id -> Monitor.user_id m <> "u2")
  /\ fst (Lifecycle.deleteMonitor sample_uuid_in stranger_env
            (naming "DELETE" "m1") start_world)
     = Edge.mkResponse 404
         (Lifecycle.delete_error "Monitor not found or access denied").
Proof.
  assert (Hne : "m1" <> "") by discriminate.
  assert (H : forall id m, sample_uuid_in "m1" = Some id ->
                           In m (monitors (Lifecycle.db start_world)) ->
                           Monitor.id m = id -> Monitor.user_id m <> "u2").
  { intros id m _ [<- | [<- | []]] _; discriminate. }
  split; [split; [exact stranger_signed_in | split; assumption] | ].
  exact (proj1 (proj2 (proj2 (LifecycleFacts.not_owned_is_not_found
                                sample_uuid_in stranger_env "u2" "m1"
                                start_world stranger_signed_in Hne H)))).
Defined.

Lemma failing_store_signed_in : signed_in failing_store_env "u1".
Proof. split; reflexivity. Defined.

(** The store refuses the insert after the probe of [m1] has run. *)
Lemma runCheck_reports_storage_failure_witness :
  (signed_in failing_store_env "u1" /\ "M1" <> ""
   /\ sample_uuid_in "M1" = Some (Monitor.id m1)
   /\ select_by_id (Lifecycle.db start_world) "u1" (Monitor.id m1) = [m1]
   /\ Lifecycle.fault failing_store_env
        (Lifecycle.from_monitor_checks_insert
           (mkNewCheck "m1" Probe.up (Some 120) None)) <> None)
  /\ fst (Lifecycle.runCheck sample_uuid_in failing_store_env
            (naming "POST" "M1") start_world)
     = Edge.mkResponse 500
         (Lifecycle.check_error "Failed to record check result")
  /\ Lifecycle.db (snd (Lifecycle.runCheck sample_uuid_in failing_store_env
                          (naming "POST" "M1") start_world))
     = Lifecycle.db start_world.
Proof.
  assert (Hne : "M1" <> "") by discriminate.
  assert (Hf : Lifecycle.fault failing_store_env
                 (Lifecycle.from_monitor_checks_insert
                    (mkNewCheck "m1" Probe.up (Some 120) None)) <> None)
    by discriminate.
  split; [split; [exact failing_store_signed_in
                 | split; [exact Hne
                          | split; [reflexivity
                                   | split; [reflexivity | exact Hf]]]] | ].
  exact (LifecycleFacts.runCheck_reports_storage_failure sample_uuid_in
           failing_store_env "u1" "M1" m1
           (Probe.mkResult Probe.up (Some 120) None)
           start_world failing_store_signed_in Hne eq_refl eq_refl eq_refl
           eq_refl (or_introl Hf)).
Defined.

(** The owner deletes [m1]; then "u1" asks for a check of it. *)
Lemma check_after_delete_not_found_witness :
  (well_formed (Lifecycle.db start_world)
   /\ Edge.status (fst (Lifecycle.deleteMonitor sample_uuid_in owner_env
                          (naming "DELETE" "m1") start_world)) = 200
   /\ signed_in owner_env "u1")
  /\ fst (Lifecycle.runCheck sample_uuid_in owner_env
            (Lifecycle.mkRequest "POST"
               (Some (Lifecycle.mkIdRequest
                        (requested (naming "DELETE" "m1")))))
            (snd (Lifecycle.deleteMonitor sample_uuid_in owner_env
                    (naming "DELETE" "m1") start_world)))
     = Edge.mkResponse 404
         (Lifecycle.check_error "Monitor not found or access denied").
Proof.
  split; [split; [exact sample_db_well_formed
                 | split; [reflexivity | exact owner_signed_in]] | ].
  exact (proj1 (LifecycleFacts.check_after_delete_not_found sample_uuid_in
                  owner_env owner_env "u1" (naming "DELETE" "m1") start_world
                  sample_db_well_formed eq_refl owner_signed_in)).
Defined.

(** A valid request of the user "u1". *)
Lemma createMonitor_all_or_nothing_witness :
  Edge.status (fst (Edge.createMonitor sample_env
                      (create_with "site" (Some 120)) sample_world)) = 201
  /\ exists u body row,
    authenticated sample_env u
    /\ Edge.json (create_with "site" (Some 120)) = Some body
    /\ Edge.db (snd (Edge.createMonitor sample_env
                       (create_with "site" (Some 120)) sample_world))
       = mkDatabase (users sample_db) (monitors sample_db ++ [row])
                    (monitor_checks sample_db)
    /\ Monitor.user_id row = u.
Proof.
  split; [reflexivity | ].
  destruct (proj2 (ListingFacts.createMonitor_all_or_nothing sample_env
                     (create_with "site" (Some 120)) sample_world) eq_refl)
    as (u & body & row & Ha & Hj & _ & Hdb & Hrow & _).
  exists u, body, row.
  split; [exact Ha | split; [exact Hj | split; [exact Hdb | ]]].
  rewrite Hrow. reflexivity.
Defined.

(** A request without url. *)
Lemma createMonitor_400_iff_witness :
  authenticated sample_env "u1"
  /\ Edge.status
       (fst (Edge.createMonitor sample_env
               (Edge.mkCreateRequest "POST"
                  (Some (Edge.mkCreate (Some "site") None (Some "https")
                                       None)))
               sample_world)) = 400.
Proof.
  split; [exact EdgeFacts.sample_authenticated | ].
  apply (proj1 (ListingFacts.createMonitor_400_iff sample_env "u1"
                  (Edge.mkCreate (Some "site") None (Some "https") None)
                  sample_world EdgeFacts.sample_authenticated)).
  left. reflexivity.
Defined.

(** The listing of the sample database for "u1". *)
Lemma getMonitors_scoped_newest_first_witness :
  (authenticated sample_env "u1"
   /\ Edge.fault sample_env Edge.from_monitors_select = None)
  /\ exists entries w',
    Edge.getMonitors sample_env "GET" sample_world
    = (Edge.mkResponse 200
         (Edge.list_data entries (Z.of_nat (List.length entries))), w')
    /\ forall x, In x entries -> Monitor.user_id (Edge.monitor x) = "u1".
Proof.
  split; [split; [exact EdgeFacts.sample_authenticated | reflexivity] | ].
  destruct (ListingFacts.getMonitors_scoped_newest_first sample_env "u1"
              sample_world EdgeFacts.sample_authenticated eq_refl)
    as (entries & w' & Hrun & _ & Hown & _).
  exists entries, w'. split; [exact Hrun | exact Hown].
Defined.

Lemma broken_listing_authenticated : authenticated broken_listing_env "u1".
Proof. split; reflexivity. Defined.

(** The query for the monitors fails. *)
Lemma getMonitors_never_writes_witness :
  (authenticated broken_listing_env "u1"
   /\ Edge.fault broken_listing_env Edge.from_monitors_select <> None)
  /\ Edge.getMonitors broken_listing_env "GET" sample_world
     = (Edge.mkResponse 500 (Edge.list_error "Failed to fetch monitors"),
        Edge.record_call Edge.from_monitors_select sample_world).
Proof.
  assert (Hf : Edge.fault broken_listing_env Edge.from_monitors_select
               <> None) by discriminate.
  split; [split; [exact broken_listing_authenticated | exact Hf] | ].
  exact (proj2 (ListingFacts.getMonitors_never_writes broken_listing_env
                  sample_world)
           "u1" broken_listing_authenticated Hf).
Defined.

(** "u1" creates a monitor at the instant 300 and lists. *)
Lemma created_monitor_listed_first_witness :
  (well_formed (Edge.db sample_world)
   /\ authenticated sample_env "u1"
   /\ (forall m, In m (monitors (Edge.db sample_world)) ->
                 Monitor.user_id m = "u1" ->
                 Monitor.created_at m < Edge.sql_now sample_env)
   /\ Edge.fault sample_env Edge.from_monitors_select = None)
  /\ exists row w1 rest w2,
    Edge.createMonitor sample_env (create_with "site" None) sample_world
    = (Edge.mkResponse 201 (Edge.monitor_body (Some row)), w1)
    /\ Edge.getMonitors sample_env "GET" w1
       = (Edge.mkResponse 200
            (Edge.list_data (Edge.mkWithStatus row None :: rest)
                            (Z.of_nat (S (List.length rest)))), w2).
Proof.
  assert (Hnew : forall m, In m (monitors (Edge.db sample_world)) ->
                           Monitor.user_id m = "u1" ->
                           Monitor.created_at m < Edge.sql_now sample_env).
  { intros m [<- | [<- | []]] _; reflexivity. }
  split; [split; [exact sample_db_well_formed
                 | split; [exact EdgeFacts.sample_authenticated
                          | split; [exact Hnew | reflexivity]]] | ].
  eexists; eexists.
  destruct (ListingFacts.created_monitor_listed_first sample_env "u1"
              (create_with "site" None) sample_world _ _
              sample_db_well_formed EdgeFacts.sample_authenticated
              eq_refl Hnew eq_refl)
    as (rest & w2 & Hrun & _).
  exists rest, w2. split; [reflexivity | exact Hrun].
Defined.

(** "u1" checks [m1] at the instant 3000, after the checks of 1000 and
    2000, and lists. *)
Lemma check_then_listing_witness :
  ((forall c, In c (monitor_checks (Lifecycle.db start_world)) ->
              MonitorCheck.monitor_id c = "m1" ->
              MonitorCheck.checked_at c < Lifecycle.sql_now owner_env)
   /\ authenticated sample_env "u1")
  /\ exists w1',
    Lifecycle.runCheck sample_uuid_in owner_env (naming "POST" "m1")
                       start_world
    = (Edge.mkResponse 200
         (Lifecycle.check_data
            (Lifecycle.CheckResult.mk "m1" Probe.up (Some 120) None 3000)),
       w1')
    /\ get_latest_monitor_status (monitor_checks (Lifecycle.db w1')) "m1"
       = [StatusRow.mk "m1" Probe.up 3000].
Proof.
  assert (Hlater : forall c, In c (monitor_checks (Lifecycle.db start_world)) ->
                     MonitorCheck.monitor_id c = "m1" ->
                     MonitorCheck.checked_at c < Lifecycle.sql_now owner_env).
  { intros c [<- | [<- | []]] _; reflexivity. }
  split; [split; [exact Hlater | exact EdgeFacts.sample_authenticated] | ].
  exists (snd (Lifecycle.runCheck sample_uuid_in owner_env
                 (naming "POST" "m1") start_world)).
  split; [reflexivity | ].
  exact (proj1 (ListingFacts.check_then_listing sample_uuid_in owner_env
                  (naming "POST" "m1") start_world _
                  (Lifecycle.CheckResult.mk "m1" Probe.up (Some 120) None 3000)
                  sample_env "u1" [] eq_refl Hlater eq_refl
                  EdgeFacts.sample_authenticated eq_refl eq_refl)).
Defined.

(** A check made 10 000 000 ms ago. *)
Lemma formatTime_floor_witness :
  (Dashboard.safe_integer 1700010000000
   && Dashboard.safe_integer 1700000000000
   && Dashboard.safe_integer (1700010000000 - 1700000000000) = true
   /\ 60000 <= 1700010000000 - 1700000000000)
  /\ exists n unit ms,
    Dashboard.formatTime 1700010000000 1700000000000
    = Some (number_to_string n ++ unit ++ " ago")
    /\ 1 <= n /\ n * ms <= 1700010000000 - 1700000000000 < (n + 1) * ms.
Proof.
  assert (Hsafe : Dashboard.safe_integer 1700010000000
                  && Dashboard.safe_integer 1700000000000
                  && Dashboard.safe_integer (1700010000000 - 1700000000000)
                  = true) by reflexivity.
  assert (H : 60000 <= 1700010000000 - 1700000000000) by lia.
  split; [split; [exact Hsafe | exact H] | ].
  destruct (proj2 (DashboardFacts.formatTime_floor 1700010000000
                     1700000000000 Hsafe) H)
    as (n & unit & ms & E & Hn & Hb & _).
  exists n, unit, ms. split; [exact E | split; [exact Hn | exact Hb]].
Defined.

(** A manual check of [m1], shown with a status, and of [m2], shown
    without. *)
Lemma handleCheckCompleted_updates_witness :
  nth_error shown 0 = Some (Edge.mkWithStatus m2 None)
  /\ exists m',
    nth_error (Dashboard.handleCheckCompleted 5000 "m2" Probe.up shown) 0
    = Some m'
    /\ m' = Edge.mkWithStatus m2 None.
Proof.
  split; [reflexivity | ].
  destruct (proj2 (DashboardFacts.handleCheckCompleted_updates 5000 "m2"
                     Probe.up shown) 0%nat (Edge.mkWithStatus m2 None)
              eq_refl)
    as (m' & Hn & Hsame & _).
  exists m'. split; [exact Hn | ]. apply Hsame. right. reflexivity.
Defined.
End ScenarioFacts.
